(** * Collaborative canvas server: history engine and relay

    A shallow embedding of [src/server/server.js] (the file under
    [src/unnamed/part_000] has the same WebSocket code, with comments and one
    extra log line): the [ws.on('message')] handler, [broadcastToAll] and the
    retention sweep installed with [setInterval].

    Conventions of the embedding
    - JavaScript values are the inductive [value]; numbers are IEEE doubles
      ([PrimFloat]); strings are Rocq strings, one character per code unit.
    - [canvasStates] is a JavaScript array: its indexed elements are a list
      (a hole reads as [undefined] and is kept as [VUndefined]) and the
      properties written under a negative key are kept apart, since
      [canvasStates[-3] = v] creates a property and leaves [length] alone.
    - [currentStateIndex] is an integer-valued JavaScript number; it is a [Z]
      here (exact below 2^53, which no run of the server reaches).
    - [JSON.parse] and [JSON.stringify] belong to the runtime and are
      parameters of the development; a frame is whatever the transport
      carries.
    - The handler runs in a monad that threads the server state and carries a
      thrown exception up to the enclosing [try]/[catch].
    - The [connection] and [close] callbacks register and unregister
      participants and greet them; they take the id and the colour that the
      runtime drew. The [error] callback only logs and is left out.
    - Of the static file responder, the filter of the requested path is
      embedded; the rest of it goes through the file system. *)

From Stdlib Require Import ZArith Lia.
From Stdlib Require Import Floats.PrimFloat Numbers.Cyclic.Int63.Uint63.
From stdpp Require Import gmap strings list pretty.

#[local] Set Warnings "-register-all,-clear-no-such-hyp".
#[local] Open Scope string_scope.
#[local] Open Scope list_scope.
#[local] Open Scope Z_scope.

(** ** JavaScript values *)

Module Js.

Inductive value :=
  | VUndefined
  | VNull
  | VBool (b : bool)
  | VNum (x : float)
  | VStr (s : string)
  | VArr (l : list value)
  | VObj (m : gmap string value).

Inductive Exn := SyntaxError | TypeError.

(** The number a JavaScript program gets for the integer [z]. *)
Definition number_of_Z (z : Z) : float :=
  if decide (z < 0)
  then PrimFloat.opp (PrimFloat.of_uint63 (Uint63.of_Z (- z)))
  else PrimFloat.of_uint63 (Uint63.of_Z z).

(** [ToBoolean]: what [if (v)] tests. *)
Definition truthy (v : value) : bool :=
  match v with
  | VUndefined | VNull => false
  | VBool b => b
  | VNum x => negb (PrimFloat.eqb x 0%float || negb (PrimFloat.eqb x x))
  | VStr s => negb (String.eqb s EmptyString)
  | VArr _ | VObj _ => true
  end.

(** [v === s] for a string [s]. *)
Definition strict_eq_string (v : value) (s : string) : bool :=
  match v with
  | VStr t => String.eqb t s
  | _ => false
  end.

(** The properties of a list-like value under their index names. *)
Definition indexed (l : list value) : gmap string value :=
  list_to_map (imap (fun i v => (pretty i, v)) l).

Definition code_units (s : string) : list value :=
  (fun c => VStr (String c EmptyString)) <$> String.list_ascii_of_string s.

(** Own enumerable properties, as the spread [{...v}] copies them. *)
Definition own_props (v : value) : gmap string value :=
  match v with
  | VObj m => m
  | VArr l => indexed l
  | VStr s => indexed (code_units s)
  | _ => ∅
  end.

(** [v.k] for a name [k] that no prototype defines (the handler reads
    [type], [userId] and [stateData] only). [None]: the access throws
    a [TypeError], which it does on [null] and [undefined]. *)
Definition read (v : value) (k : string) : option value :=
  match v with
  | VUndefined | VNull => None
  | VArr l =>
      Some (default VUndefined
              (<["length" := VNum (number_of_Z (Z.of_nat (length l)))]> (indexed l) !! k))
  | VStr s =>
      Some (default VUndefined
              (<["length" := VNum (number_of_Z (Z.of_nat (String.length s)))]>
                 (indexed (code_units s)) !! k))
  | _ => Some (default VUndefined (own_props v !! k))
  end.

(** An object literal [{k1: v1, k2: v2, ...}] with distinct names. *)
Definition obj (fields : list (string * value)) : value :=
  VObj (list_to_map fields).

(** *** Arrays that are written through an index *)

Record Array := mkArray {
  elems : list value;       (* elements 0 .. length-1 *)
  extra : gmap Z value      (* properties under a negative key *)
}.

Definition empty_array : Array := mkArray [] ∅.

Definition len (a : Array) : Z := Z.of_nat (length (elems a)).

(** [a[i]] *)
Definition get (a : Array) (i : Z) : value :=
  if decide (0 ≤ i)
  then default VUndefined (elems a !! Z.to_nat i)
  else default VUndefined (extra a !! i).

(** [a[i] = v]: in range it overwrites, at or past [length] it extends the
    array (leaving holes up to [i]), under a negative key it sets a property. *)
Definition set (a : Array) (i : Z) (v : value) : Array :=
  if decide (i < 0) then mkArray (elems a) (<[i := v]> (extra a))
  else if decide (i < len a) then mkArray (<[Z.to_nat i := v]> (elems a)) (extra a)
  else mkArray (elems a ++ replicate (Z.to_nat (i - len a)) VUndefined ++ [v]) (extra a).

(** [a.splice(start)] and [a.splice(start, deleteCount)]: a negative [start]
    counts from the end, both arguments are clamped to the array. *)
Definition splice (a : Array) (start : Z) (deleteCount : option Z) : Array :=
  let from := if decide (start < 0) then Z.max (len a + start) 0 else Z.min start (len a) in
  let count :=
    match deleteCount with
    | None => len a - from
    | Some d => Z.min (Z.max d 0) (len a - from)
    end in
  mkArray (take (Z.to_nat from) (elems a) ++ drop (Z.to_nat (from + count)) (elems a))
          (extra a).

(** [a.length = 0] *)
Definition truncate (a : Array) : Array := mkArray [] (extra a).

End Js.

Import Js.

(** ** Server state *)

Inductive ReadyState := CONNECTING | OPEN | CLOSING | CLOSED.

#[global] Instance ReadyState_eq_dec : EqDecision ReadyState.
Proof. solve_decision. Defined.

Record WebSocket := mkWebSocket { readyState : ReadyState }.

(** An entry of the [connections] map. *)
Record User := mkUser {
  ws : WebSocket;
  color : string;
  name : string;
  userId : string
}.

Inductive LogEntry :=
  | ErrorParsingMessage (error : Exn).

(** [connections] is a [Map]: its entries in insertion order, keys distinct.
    [outbox] collects what [ws.send] was given, with the key of the
    participant whose socket it was; [console] collects [console.error]. *)
Record Server (frame : Type) := mkServer {
  connections : list (string * User);
  canvasStates : Array;
  currentStateIndex : Z;
  outbox : list (string * frame);
  console : list LogEntry
}.

Arguments mkServer {frame}.
Arguments connections {frame}.
Arguments canvasStates {frame}.
Arguments currentStateIndex {frame}.
Arguments outbox {frame}.
Arguments console {frame}.

(** The retention cap of the sweep. *)
Definition RETENTION : Z := 50.

(** ** The handler monad: state and exceptions *)

Inductive outcome (A : Type) :=
  | Done (a : A)
  | Throw (e : Exn).

Arguments Done {A}.
Arguments Throw {A}.

Definition M (S A : Type) : Type := S → outcome A * S.

#[global] Instance M_ret {S} : MRet (M S) :=
  fun A a st => (Done a, st).

#[global] Instance M_bind {S} : MBind (M S) :=
  fun A B k m st =>
    match m st with
    | (Done a, st') => k a st'
    | (Throw e, st') => (Throw e, st')
    end.

Definition throw {S A} (e : Exn) : M S A := fun st => (Throw e, st).

(** [try { body } catch (error) { handler }] *)
Definition try_catch {S A} (body : M S A) (handler : Exn → M S A) : M S A :=
  fun st =>
    match body st with
    | (Done a, st') => (Done a, st')
    | (Throw e, st') => handler e st'
    end.

Definition gets {S A} (f : S → A) : M S A := fun st => (Done (f st), st).

Definition modify {S} (f : S → S) : M S unit := fun st => (Done tt, f st).

Definition or_throw {S A} (e : Exn) (o : option A) : M S A :=
  match o with
  | Some a => mret a
  | None => throw e
  end.

(** The message kinds that [switch (message.type)] tells apart; the cases
    compare with [===], so only a string selects one. *)
Inductive Kind :=
  | DrawEnd | Undo | Redo | Clear | SaveState | DrawStart | DrawMove | OtherKind.

Definition kind_of (type : value) : Kind :=
  if strict_eq_string type "draw-end" then DrawEnd
  else if strict_eq_string type "undo" then Undo
  else if strict_eq_string type "redo" then Redo
  else if strict_eq_string type "clear" then Clear
  else if strict_eq_string type "save-state" then SaveState
  else if strict_eq_string type "draw-start" then DrawStart
  else if strict_eq_string type "draw-move" then DrawMove
  else OtherKind.

(** The runtime's JSON codec over the frames of the transport. *)
Class Json (frame : Type) := {
  JSON_parse : frame → option value;     (* [None]: throws SyntaxError *)
  JSON_stringify : value → frame
}.

Section Code.

Context `{Json frame}.

#[local] Abbreviation State := (Server frame).
#[local] Abbreviation Handler := (M State).

Definition set_currentStateIndex (i : Z) : Handler unit :=
  modify (fun st =>
    mkServer (connections st) (canvasStates st) i (outbox st) (console st)).

Definition set_canvasStates (a : Array) : Handler unit :=
  modify (fun st =>
    mkServer (connections st) a (currentStateIndex st) (outbox st) (console st)).

(** [user.ws.send(text)] on the socket registered under [key] *)
Definition send (key : string) (text : frame) : Handler unit :=
  modify (fun st =>
    mkServer (connections st) (canvasStates st) (currentStateIndex st)
             (outbox st ++ [(key, text)]) (console st)).

Definition console_error (error : Exn) : Handler unit :=
  modify (fun st =>
    mkServer (connections st) (canvasStates st) (currentStateIndex st)
             (outbox st) (console st ++ [ErrorParsingMessage error])).

(** [connections.forEach(f)] *)
Fixpoint forEach (entries : list (string * User))
    (f : User → string → Handler unit) : Handler unit :=
  match entries with
  | [] => mret tt
  | (key, user) :: rest => f user key ;; forEach rest f
  end.

(** [broadcastToAll(message, excludeUserId = null)]; the counter [sentCount]
    is never read and is left out. *)
Definition broadcastToAll (message : value) (excludeUserId : option string)
    : Handler unit :=
  entries ← gets connections;
  forEach entries (fun user userId =>
    if bool_decide (Some userId ≠ excludeUserId)
       && bool_decide (readyState (ws user) = OPEN)
    then send userId (JSON_stringify message)
    else mret tt).

(** The body of [switch (message.type)] for a connection whose closure holds
    [userId] and [userColor]. *)
Definition dispatch (userId userColor : string) (message type : value)
    : Handler unit :=
  match kind_of type with
  | DrawEnd =>
      sender ← or_throw TypeError (read message "userId");
      if strict_eq_string sender userId
      then broadcastToAll (obj [("type", VStr "save-state"); ("userId", VStr userId)]) None
      else mret tt
  | Undo =>
      current ← gets currentStateIndex;
      if decide (0 < current) then
        set_currentStateIndex (current - 1) ;;
        states ← gets canvasStates;
        broadcastToAll (obj [("type", VStr "undo");
                             ("stateIndex", VNum (number_of_Z (current - 1)));
                             ("stateData", get states (current - 1))]) None
      else if decide (current = 0) then
        set_currentStateIndex (-1) ;;
        broadcastToAll (obj [("type", VStr "undo");
                             ("stateIndex", VNum (number_of_Z (-1)));
                             ("stateData", VNull)]) None
      else mret tt
  | Redo =>
      current ← gets currentStateIndex;
      states ← gets canvasStates;
      if decide (current < len states - 1) then
        set_currentStateIndex (current + 1) ;;
        broadcastToAll (obj [("type", VStr "redo");
                             ("stateIndex", VNum (number_of_Z (current + 1)));
                             ("stateData", get states (current + 1))]) None
      else mret tt
  | Clear =>
      set_currentStateIndex (-1) ;;
      states ← gets canvasStates;
      set_canvasStates (truncate states) ;;
      broadcastToAll (obj [("type", VStr "clear"); ("userId", VStr userId)]) None
  | SaveState =>
      stateData ← or_throw TypeError (read message "stateData");
      if truthy stateData then
        current ← gets currentStateIndex;
        states ← gets canvasStates;
        (if decide (current < len states - 1)
         then set_canvasStates (splice states (current + 1) None)
         else mret tt) ;;
        set_currentStateIndex (current + 1) ;;
        states ← gets canvasStates;
        set_canvasStates (set states (current + 1) stateData)
      else mret tt
  | DrawStart | DrawMove =>
      broadcastToAll (VObj (<["userId" := VStr userId]> (own_props message)))
                     (Some userId)
  | OtherKind =>
      broadcastToAll (VObj (<["color" := VStr userColor]>
                              (<["userId" := VStr userId]> (own_props message))))
                     (Some userId)
  end.

(** [ws.on('message', (data) => { try { ... } catch (error) { ... } })] *)
Definition on_message (userId userColor : string) (data : frame) : Handler unit :=
  try_catch
    (message ← or_throw SyntaxError (JSON_parse data);
     type ← or_throw TypeError (read message "type");
     dispatch userId userColor message type)
    (fun error => console_error error).

(** The callback of [setInterval(..., 60000)]. *)
Definition sweep : Handler unit :=
  states ← gets canvasStates;
  if decide (RETENTION < len states) then
    let statesToRemove := len states - RETENTION in
    set_canvasStates (splice states 0 (Some statesToRemove)) ;;
    current ← gets currentStateIndex;
    set_currentStateIndex (current - statesToRemove)
  else mret tt.

(** ** Runs of the server *)

(** What the event loop hands to the server, one at a time: a frame on the
    connection of [userId], or a tick of the sweep timer. *)
Inductive Event :=
  | Message (userId userColor : string) (data : frame)
  | Sweep.

Definition step (ev : Event) (st : State) : State :=
  match ev with
  | Message userId userColor data => (on_message userId userColor data st).2
  | Sweep => (sweep st).2
  end.

Definition run (evs : list Event) (st : State) : State :=
  foldl (fun st ev => step ev st) st evs.

(** The state after each event of a run, in order. *)
Fixpoint trace (evs : list Event) (st : State) : list State :=
  match evs with
  | [] => []
  | ev :: rest => step ev st :: trace rest (step ev st)
  end.

(** ** Vocabulary of the specification *)

(** The history is the indexed part of [canvasStates]. *)
Definition history (st : State) : list value := elems (canvasStates st).

(** [-1 <= current <= length(history) - 1] *)
Definition cursor_in_range (st : State) : Prop :=
  -1 ≤ currentStateIndex st ≤ len (canvasStates st) - 1.

(** Server start: no snapshot, cursor at [-1]. *)
Definition fresh (st : State) : Prop :=
  canvasStates st = empty_array ∧ currentStateIndex st = -1.

(** The participants a broadcast reaches: the registered ones whose
    transport is open, except the excluded one. *)
Definition recipients (excludeUserId : option string)
    (entries : list (string * User)) : list string :=
  (filter (fun e : string * User =>
             Some e.1 ≠ excludeUserId ∧ readyState (ws e.2) = OPEN) entries).*1.

(** The state once [message] has been handed to each of them. *)
Definition delivered (message : value) (excludeUserId : option string)
    (st : State) : State :=
  mkServer (connections st) (canvasStates st) (currentStateIndex st)
    (outbox st ++
       ((fun key => (key, JSON_stringify message)) <$>
          recipients excludeUserId (connections st)))
    (console st).

Definition with_cursor (i : Z) (st : State) : State :=
  mkServer (connections st) (canvasStates st) i (outbox st) (console st).

Definition with_history (a : Array) (st : State) : State :=
  mkServer (connections st) a (currentStateIndex st) (outbox st) (console st).

Definition logged (error : Exn) (st : State) : State :=
  mkServer (connections st) (canvasStates st) (currentStateIndex st)
    (outbox st) (console st ++ [ErrorParsingMessage error]).

(** The frames of one message kind. *)
Definition frame_of_kind (kind : string) (data : frame) (message : value) : Prop :=
  JSON_parse data = Some message ∧ read message "type" = Some (VStr kind).

(** A [save-state] frame that carries a snapshot. *)
Definition commit_frame (data : frame) (snapshot : value) : Prop :=
  ∃ message, frame_of_kind "save-state" data message ∧
             read message "stateData" = Some snapshot ∧ truthy snapshot = true.

(** The event commits [snapshot], whoever sends it. *)
Definition commits (ev : Event) (snapshot : value) : Prop :=
  match ev with
  | Message _ _ data => commit_frame data snapshot
  | Sweep => False
  end.

Definition commit_event (ev : Event) : Prop := ∃ snapshot, commits ev snapshot.

(** The event is an [undo] frame. *)
Definition undoes (ev : Event) : Prop :=
  match ev with
  | Message _ _ data => ∃ message, frame_of_kind "undo" data message
  | Sweep => False
  end.

(** The events of the undo/redo timeline: commits, undos and redos. *)
Definition timeline_event (ev : Event) : Prop :=
  match ev with
  | Message _ _ data =>
      (∃ snapshot, commit_frame data snapshot) ∨
      (∃ message, frame_of_kind "undo" data message) ∨
      (∃ message, frame_of_kind "redo" data message)
  | Sweep => False
  end.

(** The requests the server broadcasts. *)
Definition save_state_request (userId : string) : value :=
  obj [("type", VStr "save-state"); ("userId", VStr userId)].

Definition undo_message (stateIndex : Z) (stateData : value) : value :=
  obj [("type", VStr "undo"); ("stateIndex", VNum (number_of_Z stateIndex));
       ("stateData", stateData)].

Definition redo_message (stateIndex : Z) (stateData : value) : value :=
  obj [("type", VStr "redo"); ("stateIndex", VNum (number_of_Z stateIndex));
       ("stateData", stateData)].

(** The array after [save-state] stored [stateData] at [current + 1]. *)
Definition committed (states : Array) (current : Z) (stateData : value) : Array :=
  set (if decide (current < len states - 1)
       then splice states (current + 1) None
       else states)
      (current + 1) stateData.

(** ** Registration

    The [connection] callback draws [userId] from the clock and the random
    generator and [userColor] from [getRandomColor]; here it takes what was
    drawn. [outbox] names a socket by its key, so that under a collision of
    ids the entries before and after the registration name two sockets. *)

Definition set_connections (entries : list (string * User)) : Handler unit :=
  modify (fun st =>
    mkServer entries (canvasStates st) (currentStateIndex st) (outbox st) (console st)).

(** [connections.set(key, user)]: a known key keeps its place, a new one
    goes last. *)
Fixpoint map_set (key : string) (user : User) (entries : list (string * User))
    : list (string * User) :=
  match entries with
  | [] => [(key, user)]
  | (k, u) :: rest =>
      if decide (k = key) then (key, user) :: rest
      else (k, u) :: map_set key user rest
  end.

(** [connections.delete(key)] *)
Definition map_delete (key : string) (entries : list (string * User))
    : list (string * User) :=
  filter (fun e : string * User => e.1 ≠ key) entries.

(** [user => ({id: user.userId, color: user.color, name: user.name})] *)
Definition listed (user : User) : value :=
  obj [("id", VStr (userId user)); ("color", VStr (color user));
       ("name", VStr (name user))].

Definition welcome_message (userId userColor : string) : value :=
  obj [("type", VStr "welcome"); ("userId", VStr userId);
       ("color", VStr userColor); ("name", VStr "You")].

Definition user_list_message (entries : list (string * User)) : value :=
  obj [("type", VStr "user-list"); ("data", VArr (listed <$> entries.*2))].

Definition canvas_state_message (stateIndex : Z) (stateData : value) : value :=
  obj [("type", VStr "canvas-state");
       ("stateIndex", VNum (number_of_Z stateIndex));
       ("stateData", stateData)].

Definition user_joined_message (userId userColor userName : string) : value :=
  obj [("type", VStr "user-joined"); ("userId", VStr userId);
       ("color", VStr userColor); ("name", VStr userName)].

Definition user_left_message (userId : string) : value :=
  obj [("type", VStr "user-left"); ("userId", VStr userId)].

Definition clear_message (userId : string) : value :=
  obj [("type", VStr "clear"); ("userId", VStr userId)].

(** [`User ${connections.size + 1}`] *)
Definition user_name (entries : list (string * User)) : string :=
  "User " +:+ pretty (length entries + 1)%nat.

(** [wss.on('connection', (ws) => { ... })], up to the registration of the
    callbacks of [ws]. *)
Definition on_connection (ws : WebSocket) (userId userColor : string)
    : Handler unit :=
  entries ← gets connections;
  let userName := user_name entries in
  set_connections (map_set userId (mkUser ws userColor userName userId) entries) ;;
  send userId (JSON_stringify (welcome_message userId userColor)) ;;
  entries ← gets connections;
  send userId (JSON_stringify (user_list_message entries)) ;;
  current ← gets currentStateIndex;
  (if decide (0 ≤ current) then
     states ← gets canvasStates;
     send userId (JSON_stringify (canvas_state_message current (get states current)))
   else mret tt) ;;
  broadcastToAll (user_joined_message userId userColor userName) None.

(** [ws.on('close', () => { ... })] *)
Definition on_close (userId : string) : Handler unit :=
  entries ← gets connections;
  set_connections (map_delete userId entries) ;;
  broadcastToAll (user_left_message userId) None.

(** The keys of the registry are distinct, as those of a [Map] are. *)
Definition keys_distinct (st : State) : Prop := NoDup (connections st).*1.

(** The event is a [redo] frame. *)
Definition redoes (ev : Event) : Prop :=
  match ev with
  | Message _ _ data => ∃ message, frame_of_kind "redo" data message
  | Sweep => False
  end.

(** The seven kinds that have a case of their own in the [switch]. *)
Definition own_kinds : list string :=
  ["draw-end"; "undo"; "redo"; "clear"; "save-state"; "draw-start"; "draw-move"].

End Code.

(** ** The static file responder

    Of the request handler of [src/server/server.js], the filter that the
    requested path goes through before it is joined to the client
    directory. *)

Module Http.

(** The character [.], code 46. *)
Definition dot : Ascii.ascii :=
  Ascii.Ascii false true true true false true false false.

(** [url.replace(/\.\./g, '')]: every match of two dots, found from left
    to right without overlap, is removed. *)
Fixpoint remove_dotdot (url : string) : string :=
  match url with
  | EmptyString => EmptyString
  | String c1 EmptyString => String c1 EmptyString
  | String c1 (String c2 rest as tail) =>
      if Ascii.eqb c1 dot && Ascii.eqb c2 dot
      then remove_dotdot rest
      else String c1 (remove_dotdot tail)
  end.

(** [s.includes('..')] *)
Fixpoint includes_dotdot (s : string) : bool :=
  match s with
  | String c1 (String c2 _ as tail) =>
      (Ascii.eqb c1 dot && Ascii.eqb c2 dot) || includes_dotdot tail
  | _ => false
  end.

End Http.

(** ** A codec to run the server on

    Frames that are either the text of a document or text that does not
    parse; printing a document and parsing it back gives the document. *)

Module Loopback.

#[global] Instance codec : Json (option value) := {|
  JSON_parse data := data;
  JSON_stringify message := Some message
|}.

Definition socket : User :=
  mkUser (mkWebSocket OPEN) "#FF6B6B" "User 1" "user-1".

Definition peer : User :=
  mkUser (mkWebSocket OPEN) "#4ECDC4" "User 2" "user-2".

Definition gone : User :=
  mkUser (mkWebSocket CLOSED) "#45B7D1" "User 3" "user-3".

(** Three registered participants, the third with a closed transport, and
    an empty history. *)
Definition start : Server (option value) :=
  mkServer [("user-1", socket); ("user-2", peer); ("user-3", gone)]
           empty_array (-1) [] [].

Definition from_user_1 (message : value) : Event :=
  Message "user-1" "#FF6B6B" (Some message).

Definition push (snapshot : string) : Event :=
  from_user_1 (obj [("type", VStr "save-state"); ("stateData", VStr snapshot)]).

Definition undo_request : value := obj [("type", VStr "undo")].

Definition redo_request : value := obj [("type", VStr "redo")].

Definition undo : Event := from_user_1 undo_request.

Definition redo : Event := from_user_1 redo_request.

(** [n] commits of the snapshots [snapshot-0], [snapshot-1], ... *)
Definition pushes (n : nat) : list Event :=
  (fun i : nat => push ("snapshot-" +:+ pretty i)) <$> seq 0 n.

Definition undos (n : nat) : list Event := replicate n undo.

(** What the client of the repository sends when a stroke ends
    ([sendDrawEnd] in [src/client/canvas.js]): no [userId] field. *)
Definition client_draw_end : value := obj [("type", VStr "draw-end")].

Definition stamped_draw_end : value :=
  obj [("type", VStr "draw-end"); ("userId", VStr "user-1")].

Definition draw_move : value :=
  obj [("type", VStr "draw-move"); ("x", VNum 10%float); ("y", VNum 20.5%float);
       ("color", VStr "#000000"); ("size", VNum 5%float);
       ("userId", VStr "someone-else")].

(** What the client sends while the pointer moves without drawing. *)
Definition cursor_move : value :=
  obj [("type", VStr "cursor-move"); ("x", VNum 3%float); ("y", VNum 4%float);
       ("color", VStr "#000000")].

(** A fourth participant, not registered in [start]. *)
Definition newcomer : WebSocket := mkWebSocket OPEN.

(** The state of the last section: 52 commits, 51 undos, one sweep. *)
Definition swept_below : Server (option value) :=
  step Sweep (run (pushes 52 ++ undos 51) start).

End Loopback.

Section Facts.

Context `{Json frame}.

#[local] Abbreviation State := (Server frame).

(** ** The monad and the broadcast *)

Lemma forEach_send (message : value) (excludeUserId : option string)
    (entries : list (string * User)) (st : State) :
  forEach entries (fun user userId =>
    if bool_decide (Some userId ≠ excludeUserId)
       && bool_decide (readyState (ws user) = OPEN)
    then send userId (JSON_stringify message)
    else mret tt) st
  = (Done tt,
     mkServer (connections st) (canvasStates st) (currentStateIndex st)
       (outbox st ++
          ((fun key => (key, JSON_stringify message)) <$>
             recipients excludeUserId entries))
       (console st)).
Proof.
  revert st. induction entries as [|[key user] rest IH]; intros st.
  - cbn. rewrite app_nil_r. by destruct st.
  - cbn [forEach]. unfold mbind, M_bind at 1.
    unfold recipients. rewrite filter_cons. cbn [fst snd].
    destruct (bool_decide (Some key ≠ excludeUserId)) eqn:Hk;
      destruct (bool_decide (readyState (ws user) = OPEN)) eqn:Ho; cbn [andb];
      [apply bool_decide_eq_true in Hk, Ho
      |apply bool_decide_eq_true in Hk; apply bool_decide_eq_false in Ho
      |apply bool_decide_eq_false in Hk
      |apply bool_decide_eq_false in Hk].
    + rewrite decide_True by done.
      unfold send, modify. rewrite IH. cbn.
      by rewrite <- app_assoc.
    + rewrite decide_False by tauto. unfold mret, M_ret. by rewrite IH.
    + rewrite decide_False by tauto. unfold mret, M_ret. by rewrite IH.
    + rewrite decide_False by tauto. unfold mret, M_ret. by rewrite IH.
Qed.

Lemma broadcastToAll_delivers (message : value) (excludeUserId : option string)
    (st : State) :
  broadcastToAll message excludeUserId st
  = (Done tt, delivered message excludeUserId st).
Proof.
  unfold broadcastToAll, mbind, M_bind, gets. apply forEach_send.
Qed.

(** Reading a property throws on [null] and [undefined] whatever the name. *)
Lemma read_total (v : value) (k k' : string) :
  is_Some (read v k) → is_Some (read v k').
Proof. destruct v; cbn; intros [? ?]; eauto; discriminate. Qed.

(** ** Arrays *)

Lemma len_nonneg (a : Array) : 0 ≤ len a.
Proof. unfold len. lia. Qed.

Lemma splice_tail (a : Array) (start : Z) :
  0 ≤ start ≤ len a →
  elems (splice a start None) = take (Z.to_nat start) (elems a).
Proof.
  intros Hstart. unfold splice. cbn [elems].
  rewrite decide_False by lia. rewrite Z.min_l by lia.
  replace (start + (len a - start)) with (len a) by lia.
  unfold len. rewrite Nat2Z.id, drop_all. apply app_nil_r.
Qed.

Lemma splice_head (a : Array) (count : Z) :
  0 ≤ count ≤ len a →
  elems (splice a 0 (Some count)) = drop (Z.to_nat count) (elems a).
Proof.
  intros Hcount. unfold splice. cbn [elems].
  rewrite decide_False by lia. rewrite Z.min_l by apply len_nonneg.
  rewrite Z.max_l by lia. rewrite Z.min_l by lia.
  by rewrite Z.add_0_l.
Qed.

Lemma set_at_length (a : Array) (i : Z) (v : value) :
  i = len a → elems (set a i v) = elems a ++ [v].
Proof.
  intros ->. unfold set. pose proof (len_nonneg a).
  rewrite decide_False by lia. rewrite decide_False by lia.
  cbn [elems]. by rewrite Z.sub_diag.
Qed.

Lemma elems_committed (a : Array) (current : Z) (v : value) :
  -1 ≤ current ≤ len a - 1 →
  elems (committed a current v) = take (Z.to_nat (current + 1)) (elems a) ++ [v].
Proof.
  intros Hrange. unfold committed.
  destruct (decide (current < len a - 1)) as [Hlt|Hge].
  - rewrite set_at_length.
    + by rewrite splice_tail by lia.
    + unfold len at 1. rewrite splice_tail by lia.
      rewrite length_take_le; [lia|]. unfold len in Hlt. lia.
  - rewrite set_at_length by lia.
    rewrite take_ge; [done|]. unfold len in *. lia.
Qed.

Lemma len_committed (a : Array) (current : Z) (v : value) :
  -1 ≤ current ≤ len a - 1 → len (committed a current v) = current + 2.
Proof.
  intros Hrange. unfold len at 1. rewrite elems_committed by done.
  rewrite length_app, length_take_le; [cbn; lia|]. unfold len in Hrange. lia.
Qed.

(** ** The handler, branch by branch *)

Ltac unfold_handler :=
  cbv beta iota delta
    [try_catch mbind M_bind mret M_ret or_throw throw gets modify
     set_currentStateIndex set_canvasStates console_error].

Lemma on_message_unparsed userId userColor data st :
  JSON_parse data = None →
  on_message userId userColor data st = (Done tt, logged SyntaxError st).
Proof. intros Hparse. unfold on_message. unfold_handler. by rewrite Hparse. Qed.

Lemma on_message_untyped userId userColor data message st :
  JSON_parse data = Some message → read message "type" = None →
  on_message userId userColor data st = (Done tt, logged TypeError st).
Proof.
  intros Hparse Htype. unfold on_message. unfold_handler.
  rewrite Hparse. unfold_handler. by rewrite Htype.
Qed.

Lemma on_message_parsed userId userColor data message type st :
  JSON_parse data = Some message → read message "type" = Some type →
  on_message userId userColor data st
  = try_catch (dispatch userId userColor message type) console_error st.
Proof.
  intros Hparse Htype. unfold on_message. unfold_handler.
  rewrite Hparse. unfold_handler. by rewrite Htype.
Qed.

Lemma on_draw_end userId userColor data message sender st :
  frame_of_kind "draw-end" data message →
  read message "userId" = Some sender →
  on_message userId userColor data st
  = (Done tt,
     if strict_eq_string sender userId
     then delivered (save_state_request userId) None st
     else st).
Proof.
  intros [Hparse Htype] Hsender.
  rewrite (on_message_parsed _ _ _ _ _ _ Hparse Htype).
  unfold dispatch. change (kind_of (VStr "draw-end")) with DrawEnd.
  unfold_handler. rewrite Hsender.
  destruct (strict_eq_string sender userId); [|reflexivity].
  by rewrite broadcastToAll_delivers.
Qed.

Lemma on_undo userId userColor data message st :
  frame_of_kind "undo" data message →
  on_message userId userColor data st
  = (Done tt,
     let current := currentStateIndex st in
     if decide (0 < current) then
       delivered (undo_message (current - 1) (get (canvasStates st) (current - 1)))
                 None (with_cursor (current - 1) st)
     else if decide (current = 0) then
       delivered (undo_message (-1) VNull) None (with_cursor (-1) st)
     else st).
Proof.
  intros [Hparse Htype].
  rewrite (on_message_parsed _ _ _ _ _ _ Hparse Htype).
  unfold dispatch. change (kind_of (VStr "undo")) with Undo.
  unfold_handler.
  destruct (decide (0 < currentStateIndex st)) as [Hpos|Hnpos].
  - by rewrite broadcastToAll_delivers.
  - destruct (decide (currentStateIndex st = 0)) as [Hzero|Hneg]; [|reflexivity].
    by rewrite broadcastToAll_delivers.
Qed.

Lemma on_redo userId userColor data message st :
  frame_of_kind "redo" data message →
  on_message userId userColor data st
  = (Done tt,
     let current := currentStateIndex st in
     if decide (current < len (canvasStates st) - 1) then
       delivered (redo_message (current + 1) (get (canvasStates st) (current + 1)))
                 None (with_cursor (current + 1) st)
     else st).
Proof.
  intros [Hparse Htype].
  rewrite (on_message_parsed _ _ _ _ _ _ Hparse Htype).
  unfold dispatch. change (kind_of (VStr "redo")) with Redo.
  unfold_handler.
  destruct (decide (currentStateIndex st < len (canvasStates st) - 1)); [|reflexivity].
  by rewrite broadcastToAll_delivers.
Qed.

Lemma on_clear userId userColor data message st :
  frame_of_kind "clear" data message →
  on_message userId userColor data st
  = (Done tt,
     delivered (obj [("type", VStr "clear"); ("userId", VStr userId)]) None
       (with_history (truncate (canvasStates st)) (with_cursor (-1) st))).
Proof.
  intros [Hparse Htype].
  rewrite (on_message_parsed _ _ _ _ _ _ Hparse Htype).
  unfold dispatch. change (kind_of (VStr "clear")) with Clear.
  unfold_handler. by rewrite broadcastToAll_delivers.
Qed.

Lemma on_save_state userId userColor data message stateData st :
  frame_of_kind "save-state" data message →
  read message "stateData" = Some stateData →
  on_message userId userColor data st
  = (Done tt,
     if truthy stateData then
       with_history
         (committed (canvasStates st) (currentStateIndex st) stateData)
         (with_cursor (currentStateIndex st + 1) st)
     else st).
Proof.
  intros [Hparse Htype] Hdata.
  rewrite (on_message_parsed _ _ _ _ _ _ Hparse Htype).
  unfold dispatch. change (kind_of (VStr "save-state")) with SaveState.
  unfold_handler. rewrite Hdata.
  destruct (truthy stateData); [|reflexivity].
  unfold committed.
  by destruct (decide (currentStateIndex st < len (canvasStates st) - 1)).
Qed.

Lemma on_draw userId userColor data message kind st :
  kind = "draw-start" ∨ kind = "draw-move" →
  frame_of_kind kind data message →
  on_message userId userColor data st
  = (Done tt,
     delivered (VObj (<["userId" := VStr userId]> (own_props message)))
               (Some userId) st).
Proof.
  intros Hkind [Hparse Htype].
  rewrite (on_message_parsed _ _ _ _ _ _ Hparse Htype).
  unfold dispatch.
  destruct Hkind as [-> | ->].
  - change (kind_of (VStr "draw-start")) with DrawStart.
    unfold_handler. by rewrite broadcastToAll_delivers.
  - change (kind_of (VStr "draw-move")) with DrawMove.
    unfold_handler. by rewrite broadcastToAll_delivers.
Qed.

Lemma on_other userId userColor data message type st :
  JSON_parse data = Some message → read message "type" = Some type →
  kind_of type = OtherKind →
  on_message userId userColor data st
  = (Done tt,
     delivered (VObj (<["color" := VStr userColor]>
                        (<["userId" := VStr userId]> (own_props message))))
               (Some userId) st).
Proof.
  intros Hparse Htype Hkind.
  rewrite (on_message_parsed _ _ _ _ _ _ Hparse Htype).
  unfold dispatch. rewrite Hkind.
  unfold_handler. by rewrite broadcastToAll_delivers.
Qed.

(** Whatever the frame, the handler returns: an exception of the body ends
    in the [catch], which logs and does not throw. *)
Lemma on_message_returns userId userColor (data : frame) (st : State) :
  ∃ st', on_message userId userColor data st = (Done tt, st').
Proof.
  unfold on_message, try_catch.
  match goal with |- context [let (_, _) := ?body st in _] =>
    destruct (body st) as [[[]|error] st'] end.
  - by eexists.
  - unfold console_error, modify. by eexists.
Qed.

Lemma kind_of_spec (type : value) :
  match kind_of type with
  | DrawEnd => type = VStr "draw-end"
  | Undo => type = VStr "undo"
  | Redo => type = VStr "redo"
  | Clear => type = VStr "clear"
  | SaveState => type = VStr "save-state"
  | DrawStart => type = VStr "draw-start"
  | DrawMove => type = VStr "draw-move"
  | OtherKind => True
  end.
Proof.
  destruct type as [| |b|x|s|l|m]; try exact I.
  unfold kind_of, strict_eq_string.
  repeat match goal with
         | |- context [String.eqb s ?t] =>
             destruct (String.eqb_spec s t) as [->|_]; [reflexivity|]
         end.
  exact I.
Qed.

(** ** Malformed frames *)

(** C9, as the code has it. A frame that does not parse ([JSON.parse]
    throws), or that parses to [null] so that reading its [type] throws,
    never makes the handler throw: the handler returns normally, the error
    is logged once, the registry (and with it every transport) is as before,
    so are the history and the cursor, and nothing is sent. These are the
    frames that end in the [catch]; a frame that parses to a number, a
    boolean, a string or an array raises nothing and goes to the default
    case of the [switch]. *)
Theorem malformed_frame_is_swallowed userId userColor (data : frame) (st : State) :
  JSON_parse data = None ∨ JSON_parse data = Some VNull →
  ∃ error st',
    on_message userId userColor data st = (Done tt, st') ∧
    console st' = console st ++ [ErrorParsingMessage error] ∧
    connections st' = connections st ∧
    canvasStates st' = canvasStates st ∧
    currentStateIndex st' = currentStateIndex st ∧
    outbox st' = outbox st.
Proof.
  intros [Hparse|Hparse].
  - exists SyntaxError, (logged SyntaxError st).
    by rewrite on_message_unparsed.
  - exists TypeError, (logged TypeError st).
    by rewrite (on_message_untyped _ _ _ VNull).
Qed.

(** ** Requests to save *)

(** C1, as the code has it. A [draw-end] frame whose [userId] field is
    strictly equal to the id of the connection it arrives on leaves the
    history and the cursor alone and sends a [save-state] request carrying
    that id to every registered participant with an open transport; a
    [draw-end] frame whose [userId] field is anything else, or absent,
    changes nothing and sends nothing. *)
Theorem draw_end_requests_save_when_stamped userId userColor (data : frame)
    message sender (st : State) :
  frame_of_kind "draw-end" data message →
  read message "userId" = Some sender →
  (sender = VStr userId →
     on_message userId userColor data st
     = (Done tt, delivered (save_state_request userId) None st) ∧
     canvasStates (delivered (save_state_request userId) None st) = canvasStates st ∧
     currentStateIndex (delivered (save_state_request userId) None st)
     = currentStateIndex st) ∧
  (sender ≠ VStr userId →
     on_message userId userColor data st = (Done tt, st)).
Proof.
  intros Hframe Hsender.
  rewrite (on_draw_end _ _ _ _ _ _ Hframe Hsender). split.
  - intros ->. cbn [strict_eq_string]. by rewrite String.eqb_refl.
  - intros Hne. destruct sender as [| |b|x|s|l|m]; try reflexivity.
    cbn [strict_eq_string].
    destruct (String.eqb_spec s userId) as [->|]; [done|reflexivity].
Qed.

(** ** Undo and redo *)

(** C6. [undo] with [current > 0] steps the cursor back and broadcasts an
    [undo] message with the new cursor and the snapshot stored there; with
    [current = 0] it sets the cursor to [-1] and broadcasts an [undo] message
    with index [-1] and a null snapshot; with [current < 0] it changes
    nothing and sends nothing. *)
Theorem undo_case_split userId userColor (data : frame) message (st : State) :
  frame_of_kind "undo" data message →
  let current := currentStateIndex st in
  (0 < current →
     on_message userId userColor data st
     = (Done tt,
        delivered (undo_message (current - 1) (get (canvasStates st) (current - 1)))
                  None (with_cursor (current - 1) st))) ∧
  (current = 0 →
     on_message userId userColor data st
     = (Done tt, delivered (undo_message (-1) VNull) None (with_cursor (-1) st))) ∧
  (current < 0 →
     on_message userId userColor data st = (Done tt, st)).
Proof.
  intros Hframe current. rewrite (on_undo _ _ _ _ _ Hframe).
  fold current. cbv zeta. repeat split; intros Hcur.
  - by rewrite decide_True.
  - rewrite decide_False by lia. by rewrite decide_True.
  - rewrite decide_False by lia. by rewrite decide_False by lia.
Qed.

(** C7. [redo] with [current < length - 1] steps the cursor forward and
    broadcasts a [redo] message with the new cursor and the snapshot stored
    there; with [current = length - 1] it changes nothing and sends
    nothing. *)
Theorem redo_case_split userId userColor (data : frame) message (st : State) :
  frame_of_kind "redo" data message →
  let current := currentStateIndex st in
  (current < len (canvasStates st) - 1 →
     on_message userId userColor data st
     = (Done tt,
        delivered (redo_message (current + 1) (get (canvasStates st) (current + 1)))
                  None (with_cursor (current + 1) st)) ∧
     history (with_cursor (current + 1) st) = history st) ∧
  (current = len (canvasStates st) - 1 →
     on_message userId userColor data st = (Done tt, st)).
Proof.
  intros Hframe current. rewrite (on_redo _ _ _ _ _ Hframe).
  fold current. cbv zeta. split; intros Hcur.
  - by rewrite decide_True.
  - by rewrite decide_False by lia.
Qed.

(** ** Commits *)

(** C10. A [save-state] frame whose [stateData] is absent, [null] or the
    empty string changes nothing and sends nothing, and so does any falsy
    [stateData]; a [save-state] frame after which the history or the cursor
    differs carried a truthy [stateData]. *)
Theorem save_state_needs_payload userId userColor (data : frame) message (st : State) :
  frame_of_kind "save-state" data message →
  (∀ fields, message = VObj fields → fields !! "stateData" = None →
     on_message userId userColor data st = (Done tt, st)) ∧
  (read message "stateData" = Some VNull →
     on_message userId userColor data st = (Done tt, st)) ∧
  (read message "stateData" = Some (VStr EmptyString) →
     on_message userId userColor data st = (Done tt, st)) ∧
  (∀ stateData, read message "stateData" = Some stateData →
     truthy stateData = false →
     on_message userId userColor data st = (Done tt, st)) ∧
  (∀ stateData st', read message "stateData" = Some stateData →
     on_message userId userColor data st = (Done tt, st') →
     (canvasStates st', currentStateIndex st')
     ≠ (canvasStates st, currentStateIndex st) →
     truthy stateData = true).
Proof.
  intros Hframe.
  assert (Hfalsy : ∀ stateData, read message "stateData" = Some stateData →
            truthy stateData = false →
            on_message userId userColor data st = (Done tt, st)).
  { intros stateData Hdata Hfalse.
    rewrite (on_save_state _ _ _ _ _ _ Hframe Hdata). by rewrite Hfalse. }
  repeat split.
  - intros fields -> Habsent. apply (Hfalsy VUndefined); [|done].
    cbn. by rewrite Habsent.
  - intros Hdata. by apply (Hfalsy VNull).
  - intros Hdata. by apply (Hfalsy (VStr EmptyString)).
  - exact Hfalsy.
  - intros stateData st' Hdata Hrun Hchanged.
    destruct (truthy stateData) eqn:Htruthy; [done|].
    rewrite (Hfalsy _ Hdata Htruthy) in Hrun. by injection Hrun as <-.
Qed.

(** ** Relay of drawing events *)

Lemma elem_of_recipients excludeUserId (entries : list (string * User)) key :
  key ∈ recipients excludeUserId entries ↔
  Some key ≠ excludeUserId ∧
  ∃ user, (key, user) ∈ entries ∧ readyState (ws user) = OPEN.
Proof.
  unfold recipients. rewrite list_elem_of_fmap. split.
  - intros [[key' user] [-> Hin]]. apply list_elem_of_filter in Hin.
    cbn in Hin. destruct Hin as [[Hne Hopen] Hin]. eauto.
  - intros [Hne [user [Hin Hopen]]]. exists (key, user). split; [done|].
    apply list_elem_of_filter. by cbn.
Qed.

(** C8. A [draw-start] or [draw-move] frame from the participant [userId]
    leaves the history and the cursor alone and is sent once to each
    registered participant whose transport is open, the sender excepted; what
    is sent is the message with its [userId] field set to the sender's id and
    every other field as it came. *)
Theorem drawing_is_relayed_to_others userId userColor (data : frame) message kind
    (st : State) :
  kind = "draw-start" ∨ kind = "draw-move" →
  frame_of_kind kind data message →
  let relayed := <["userId" := VStr userId]> (own_props message) in
  ∃ st',
    on_message userId userColor data st = (Done tt, st') ∧
    canvasStates st' = canvasStates st ∧
    currentStateIndex st' = currentStateIndex st ∧
    outbox st' =
      outbox st ++
        ((fun key => (key, JSON_stringify (VObj relayed))) <$>
           recipients (Some userId) (connections st)) ∧
    (∀ key, key ∈ recipients (Some userId) (connections st) ↔
            key ≠ userId ∧
            ∃ user, (key, user) ∈ connections st ∧ readyState (ws user) = OPEN) ∧
    relayed !! "userId" = Some (VStr userId) ∧
    (∀ field, field ≠ "userId" → relayed !! field = own_props message !! field).
Proof.
  intros Hkind Hframe relayed.
  exists (delivered (VObj relayed) (Some userId) st).
  split; [by apply (on_draw _ _ _ _ kind)|].
  do 3 (split; [reflexivity|]).
  split; [|split].
  - intros key. rewrite elem_of_recipients.
    split; intros [Hne Huser]; (split; [congruence|done]).
  - apply lookup_insert_eq.
  - intros field Hne. by apply lookup_insert_ne.
Qed.

(** ** Steps of a run *)

Lemma step_commit (ev : Event) (snapshot : value) (st : State) :
  commits ev snapshot →
  step ev st
  = with_history (committed (canvasStates st) (currentStateIndex st) snapshot)
      (with_cursor (currentStateIndex st + 1) st).
Proof.
  destruct ev as [userId userColor data|]; [|done].
  intros (message & Hframe & Hdata & Htruthy). cbn [step].
  rewrite (on_save_state _ _ _ _ _ _ Hframe Hdata). by rewrite Htruthy.
Qed.

Lemma step_undo (ev : Event) (st : State) :
  undoes ev →
  currentStateIndex (step ev st)
  = (if decide (0 < currentStateIndex st) then currentStateIndex st - 1
     else if decide (currentStateIndex st = 0) then -1
     else currentStateIndex st) ∧
  canvasStates (step ev st) = canvasStates st.
Proof.
  destruct ev as [userId userColor data|]; [|done].
  intros [message Hframe]. cbn [step].
  rewrite (on_undo _ _ _ _ _ Hframe). cbn [snd].
  destruct (decide (0 < currentStateIndex st)); [done|].
  by destruct (decide (currentStateIndex st = 0)).
Qed.

Lemma step_sweep (st : State) :
  step Sweep st
  = if decide (RETENTION < len (canvasStates st)) then
      let statesToRemove := len (canvasStates st) - RETENTION in
      with_cursor (currentStateIndex st - statesToRemove)
        (with_history (splice (canvasStates st) 0 (Some statesToRemove)) st)
    else st.
Proof.
  cbn [step]. unfold sweep. unfold_handler.
  by destruct (decide (RETENTION < len (canvasStates st))).
Qed.

Lemma run_cons (ev : Event) (evs : list Event) (st : State) :
  run (ev :: evs) st = run evs (step ev st).
Proof. reflexivity. Qed.

Lemma fresh_in_range (st : State) : fresh st → cursor_in_range st.
Proof. intros [Hstates Hcur]. unfold cursor_in_range. rewrite Hstates, Hcur. done. Qed.

(** ** The cursor invariant *)

Lemma timeline_step_in_range (ev : Event) (st : State) :
  timeline_event ev → cursor_in_range st → cursor_in_range (step ev st).
Proof.
  destruct ev as [userId userColor data|]; [|done].
  unfold cursor_in_range. intros [[snapshot Hcommit]|[[message Hundo]|[message Hredo]]] Hrange.
  - rewrite (step_commit (Message userId userColor data) snapshot) by done.
    cbn [with_history with_cursor canvasStates currentStateIndex].
    rewrite len_committed by done. lia.
  - destruct (step_undo (Message userId userColor data) st) as [-> ->];
      [by eexists|].
    repeat case_decide; lia.
  - cbn [step]. rewrite (on_redo _ _ _ _ _ Hredo). cbn [snd].
    case_decide; [|done]. cbn. lia.
Qed.

(** X23. Every frame keeps in range a cursor that is in range, whatever
    its kind: the sweep is the one transition that can take it out. *)
Lemma message_keeps_cursor_in_range userId userColor (data : frame) (st : State) :
  cursor_in_range st → cursor_in_range (step (Message userId userColor data) st).
Proof.
  intros Hrange. cbn [step].
  destruct (JSON_parse data) as [message|] eqn:Hparse;
    [|by rewrite on_message_unparsed].
  destruct (read message "type") as [type|] eqn:Htype;
    [|by rewrite (on_message_untyped _ _ _ message)].
  pose proof (kind_of_spec type) as Hkind.
  destruct (kind_of type) eqn:Hk; try subst type.
  - destruct (read_total message "type" "userId") as [sender Hsender]; [by eexists|].
    rewrite (on_draw_end _ _ _ message sender) by done.
    by destruct (strict_eq_string sender userId).
  - apply (timeline_step_in_range (Message userId userColor data)); [|done].
    right; left. by exists message.
  - apply (timeline_step_in_range (Message userId userColor data)); [|done].
    right; right. by exists message.
  - rewrite (on_clear _ _ _ message) by done. unfold cursor_in_range, len. cbn. lia.
  - destruct (read_total message "type" "stateData") as [stateData Hdata];
      [by eexists|].
    destruct (truthy stateData) eqn:Htruthy.
    + apply (timeline_step_in_range (Message userId userColor data)); [|done].
      left. exists stateData, message. done.
    + rewrite (on_save_state _ _ _ message stateData) by done. by rewrite Htruthy.
  - by rewrite (on_draw _ _ _ message "draw-start") by (done || by left).
  - by rewrite (on_draw _ _ _ message "draw-move") by (done || by right).
  - by rewrite (on_other _ _ _ message type).
Qed.

(** C2. From the empty history with the cursor at [-1], along any sequence
    of commits (save-state frames that carry a snapshot), undos and redos,
    [-1 <= current <= length(history) - 1] holds after every transition. *)
Theorem cursor_stays_in_range (evs : list Event) (st : State) :
  fresh st → Forall timeline_event evs →
  Forall cursor_in_range (trace evs st).
Proof.
  intros Hfresh%fresh_in_range Hevs. revert st Hfresh.
  induction Hevs as [|ev evs Hev _ IH]; intros st Hrange; cbn [trace].
  - constructor.
  - constructor.
    + by apply timeline_step_in_range.
    + apply IH. by apply timeline_step_in_range.
Qed.

(** ** Retention *)

Lemma sweep_caps_length (st : State) :
  len (canvasStates (step Sweep st)) ≤ RETENTION.
Proof.
  rewrite step_sweep. case_decide as Hlong; [|lia].
  cbn [with_cursor with_history canvasStates].
  unfold len at 1. rewrite splice_head by (unfold RETENTION in *; lia).
  rewrite length_drop. unfold len, RETENTION in *. lia.
Qed.

Lemma commits_append (evs : list Event) (st : State) :
  currentStateIndex st = len (canvasStates st) - 1 →
  Forall commit_event evs →
  len (canvasStates (run evs st)) = len (canvasStates st) + Z.of_nat (length evs) ∧
  currentStateIndex (run evs st) = currentStateIndex st + Z.of_nat (length evs).
Proof.
  intros Hcur Hevs. revert st Hcur.
  induction Hevs as [|ev evs [snapshot Hev] _ IH]; intros st Hcur.
  - cbn. lia.
  - rewrite run_cons.
    pose proof (len_nonneg (canvasStates st)) as Hlen.
    assert (Hstep_len : len (canvasStates (step ev st)) = len (canvasStates st) + 1).
    { rewrite (step_commit ev snapshot) by done.
      cbn [with_history canvasStates]. rewrite len_committed by lia. lia. }
    assert (Hstep_cur : currentStateIndex (step ev st) = currentStateIndex st + 1).
    { by rewrite (step_commit ev snapshot) by done. }
    destruct (IH (step ev st)) as [-> ->]; [lia|].
    rewrite Hstep_len, Hstep_cur. cbn [length]. lia.
Qed.

(** C3, as the code has it. The cap of 50 is applied by the sweep and by
    nothing else: after a sweep the history has at most 50 entries, whereas a
    commit appends without trimming. From the empty history, 55 commits with
    no undo leave 55 entries and [current = 54]; the next sweep leaves 50
    entries and [current = 49]. *)
Theorem retention_is_applied_by_the_sweep (evs : list Event) (st st0 : State) :
  fresh st → Forall commit_event evs → length evs = 55%nat →
  len (canvasStates (step Sweep st0)) ≤ RETENTION ∧
  len (canvasStates (run evs st)) = 55 ∧
  currentStateIndex (run evs st) = 54 ∧
  len (canvasStates (step Sweep (run evs st))) = 50 ∧
  currentStateIndex (step Sweep (run evs st)) = 49.
Proof.
  intros [Hstates Hcur] Hevs Hcount.
  split; [apply sweep_caps_length|].
  destruct (commits_append evs st) as [Hlen Hidx]; [by rewrite Hstates, Hcur|done|].
  rewrite Hstates, Hcount in Hlen. rewrite Hcur, Hcount in Hidx.
  change (len empty_array) with 0 in Hlen.
  split; [lia|]. split; [lia|].
  rewrite step_sweep. rewrite decide_True by (unfold RETENTION; lia).
  cbn [with_cursor with_history canvasStates currentStateIndex].
  split; [|unfold RETENTION; lia].
  unfold len at 1. rewrite splice_head by (unfold RETENTION; lia).
  rewrite length_drop. unfold len, RETENTION in *. lia.
Qed.

(** X25. While the cursor is at or past the entries that a sweep trims, the
    sweep keeps it on the snapshot it was on, and in range. *)
Lemma sweep_keeps_snapshot (st : State) :
  RETENTION < len (canvasStates st) →
  let statesToRemove := len (canvasStates st) - RETENTION in
  statesToRemove ≤ currentStateIndex st →
  currentStateIndex (step Sweep st) = currentStateIndex st - statesToRemove ∧
  history (step Sweep st) = drop (Z.to_nat statesToRemove) (history st) ∧
  get (canvasStates (step Sweep st)) (currentStateIndex (step Sweep st))
  = get (canvasStates st) (currentStateIndex st) ∧
  (cursor_in_range st → cursor_in_range (step Sweep st)).
Proof.
  intros Hlong k Hcur. rewrite step_sweep. rewrite decide_True by done.
  fold k. cbv zeta. unfold history, cursor_in_range.
  cbn [with_cursor with_history canvasStates currentStateIndex].
  assert (Hk : 0 ≤ k ≤ len (canvasStates st)) by (unfold k, RETENTION in *; lia).
  split; [done|]. split; [by apply splice_head|]. split.
  - unfold get. rewrite !decide_True by lia.
    rewrite splice_head by done. rewrite lookup_drop.
    by replace (Z.to_nat k + Z.to_nat (currentStateIndex st - k))%nat
      with (Z.to_nat (currentStateIndex st)) by lia.
  - intros Hrange. unfold len at 1. rewrite splice_head by done.
    rewrite length_drop. unfold len in *. lia.
Qed.

(** ** Commit after undo *)


(** ** Reads and writes of the array *)

Lemma get_set_eq (a : Array) (i : Z) (v : value) : get (set a i v) i = v.
Proof.
  unfold set, get. pose proof (len_nonneg a) as Hlen.
  destruct (decide (i < 0)) as [Hneg|Hpos].
  - rewrite decide_False by lia. cbn [extra]. by rewrite lookup_insert_eq.
  - rewrite decide_True by lia.
    destruct (decide (i < len a)) as [Hin|Hout]; cbn [elems].
    + rewrite list_lookup_insert_eq; [done|]. unfold len in Hin. lia.
    + rewrite lookup_app_r by (unfold len in *; lia).
      rewrite lookup_app_r by (rewrite length_replicate; unfold len in *; lia).
      rewrite length_replicate.
      replace (Z.to_nat i - length (elems a) - Z.to_nat (i - len a))%nat
        with 0%nat by (unfold len in *; lia).
      done.
Qed.

Lemma get_in_range (a : Array) (i : Z) :
  0 ≤ i → get a i = default VUndefined (elems a !! Z.to_nat i).
Proof. intros Hi. unfold get. by rewrite decide_True. Qed.

(** ** The handler as a whole *)

(** The three shapes of what a frame leaves behind: a logged error, a state
    that differs from the old one in the history and the cursor at most, or
    such a state after a broadcast. *)
Lemma on_message_shape userId userColor (data : frame) (st : State) :
  ∃ st',
    on_message userId userColor data st = (Done tt, st') ∧
    ((∃ error, st' = logged error st) ∨
     ∃ st1, connections st1 = connections st ∧ outbox st1 = outbox st ∧
            console st1 = console st ∧
            (st' = st1 ∨ ∃ message exclude, st' = delivered message exclude st1)).
Proof.
  destruct (JSON_parse data) as [message|] eqn:Hparse;
    [|rewrite on_message_unparsed by done; eauto].
  destruct (read message "type") as [type|] eqn:Htype;
    [|rewrite (on_message_untyped _ _ _ message) by done; eauto].
  pose proof (kind_of_spec type) as Hkind.
  destruct (kind_of type) eqn:Hk; try subst type.
  - destruct (read_total message "type" "userId") as [sender Hsender]; [by eexists|].
    rewrite (on_draw_end _ _ _ message sender) by done.
    eexists; split; [done|]. right. exists st. repeat split; try done.
    destruct (strict_eq_string sender userId); eauto.
  - rewrite (on_undo _ _ _ message) by done. cbv zeta.
    eexists; split; [done|]. right.
    destruct (decide (0 < currentStateIndex st));
      [exists (with_cursor (currentStateIndex st - 1) st); eauto 10|].
    destruct (decide (currentStateIndex st = 0));
      [exists (with_cursor (-1) st); eauto 10|].
    exists st. eauto.
  - rewrite (on_redo _ _ _ message) by done. cbv zeta.
    eexists; split; [done|]. right.
    destruct (decide (currentStateIndex st < len (canvasStates st) - 1));
      [exists (with_cursor (currentStateIndex st + 1) st); eauto 10|].
    exists st. eauto.
  - rewrite (on_clear _ _ _ message) by done.
    eexists; split; [done|]. right.
    exists (with_history (truncate (canvasStates st)) (with_cursor (-1) st)).
    eauto 10.
  - destruct (read_total message "type" "stateData") as [stateData Hdata];
      [by eexists|].
    rewrite (on_save_state _ _ _ message stateData) by done.
    eexists; split; [done|]. right.
    destruct (truthy stateData); [|exists st; eauto].
    exists (with_history
              (committed (canvasStates st) (currentStateIndex st) stateData)
              (with_cursor (currentStateIndex st + 1) st)).
    eauto 10.
  - rewrite (on_draw _ _ _ message "draw-start") by (done || by left).
    eexists; split; [done|]. right. exists st. eauto 10.
  - rewrite (on_draw _ _ _ message "draw-move") by (done || by right).
    eexists; split; [done|]. right. exists st. eauto 10.
  - rewrite (on_other _ _ _ message type) by done.
    eexists; split; [done|]. right. exists st. eauto 10.
Qed.

Lemma handler_shape_connections userId userColor (data : frame) (st : State) :
  ∃ st', on_message userId userColor data st = (Done tt, st') ∧
         connections st' = connections st.
Proof.
  destruct (on_message_shape userId userColor data st)
    as (st' & Hrun & [[error ->]|(st1 & Hconn & _ & _ & [->|(m & ex & ->)])]);
    eauto.
Qed.

(** X1. Whatever the frame, the handler returns without throwing, leaves the
    registry as it is, and only appends to what has been sent; each frame it
    sends goes to a registered participant whose transport is open. *)
Theorem handler_reaches_only_open_participants userId userColor (data : frame)
    (st : State) :
  ∃ st' sent,
    on_message userId userColor data st = (Done tt, st') ∧
    connections st' = connections st ∧
    outbox st' = outbox st ++ sent ∧
    ∀ key text, (key, text) ∈ sent →
      ∃ user, (key, user) ∈ connections st ∧ readyState (ws user) = OPEN.
Proof.
  destruct (on_message_shape userId userColor data st)
    as (st' & Hrun & [[error ->]|(st1 & Hconn & Hout & _ & [->|(m & ex & ->)])]).
  - exists (logged error st), []. rewrite app_nil_r.
    repeat split; try done. intros key text Hin. by apply elem_of_nil in Hin.
  - exists st1, []. rewrite app_nil_r.
    repeat split; try done. intros key text Hin. by apply elem_of_nil in Hin.
  - eexists _, _. split; [done|]. cbn [delivered connections outbox].
    rewrite Hconn, Hout. repeat split; try done.
    intros key text Hin. apply list_elem_of_fmap in Hin as (key' & [= -> ->] & Hin).
    by apply elem_of_recipients in Hin as [_ Huser].
Qed.

(** ** Clear *)

Lemma step_redo (ev : Event) (st : State) :
  redoes ev →
  currentStateIndex (step ev st)
  = (if decide (currentStateIndex st < len (canvasStates st) - 1)
     then currentStateIndex st + 1 else currentStateIndex st) ∧
  canvasStates (step ev st) = canvasStates st.
Proof.
  destruct ev as [userId userColor data|]; [|done].
  intros [message Hframe]. cbn [step].
  rewrite (on_redo _ _ _ _ _ Hframe). cbn [snd].
  by destruct (decide (currentStateIndex st < len (canvasStates st) - 1)).
Qed.

(** X2. Whatever the history and the cursor were, out of range included, a
    [clear] frame leaves no entry and the cursor at [-1], tells every
    participant with an open transport (the sender too), and makes the
    next undo or redo a step that changes nothing and sends nothing. *)
Theorem clear_resets_history userId userColor (data : frame) message (st : State) :
  frame_of_kind "clear" data message →
  ∃ st',
    on_message userId userColor data st = (Done tt, st') ∧
    history st' = [] ∧ currentStateIndex st' = -1 ∧ cursor_in_range st' ∧
    connections st' = connections st ∧
    outbox st' =
      outbox st ++
        ((fun key => (key, JSON_stringify (clear_message userId))) <$>
           recipients None (connections st)) ∧
    ∀ ev, undoes ev ∨ redoes ev → step ev st' = st'.
Proof.
  intros Hframe. rewrite (on_clear _ _ _ _ _ Hframe).
  eexists. split; [done|].
  repeat split; try done.
  intros [uid col frame'|] [Hundo|Hredo]; try done; cbn [step].
  - destruct Hundo as [m Hm]. by rewrite (on_undo _ _ _ _ _ Hm).
  - destruct Hredo as [m Hm]. by rewrite (on_redo _ _ _ _ _ Hm).
Qed.

(** ** Relay of the other kinds *)

Lemma kind_of_other (type : value) :
  (∀ kind, type = VStr kind → kind ∉ own_kinds) → kind_of type = OtherKind.
Proof.
  intros Hother. destruct type as [| |b|x|s|l|m]; try reflexivity.
  specialize (Hother s eq_refl).
  unfold kind_of, strict_eq_string.
  repeat match goal with
         | |- context [String.eqb s ?t] =>
             destruct (String.eqb_spec s t) as [->|_];
               [exfalso; apply Hother; unfold own_kinds; set_solver|]
         end.
  reflexivity.
Qed.

(** X3. A frame whose [type] is none of the seven kinds of the [switch]
    (another string, or no string at all) touches neither the history nor
    the cursor and is relayed to every other participant with an open
    transport: the message with [userId] and [color] set to those of the
    sender's connection, every other field as it came. *)
Theorem unknown_kind_is_relayed userId userColor (data : frame) message type
    (st : State) :
  JSON_parse data = Some message → read message "type" = Some type →
  (∀ kind, type = VStr kind → kind ∉ own_kinds) →
  let relayed :=
    <["color" := VStr userColor]> (<["userId" := VStr userId]> (own_props message)) in
  ∃ st',
    on_message userId userColor data st = (Done tt, st') ∧
    canvasStates st' = canvasStates st ∧
    currentStateIndex st' = currentStateIndex st ∧
    outbox st' =
      outbox st ++
        ((fun key => (key, JSON_stringify (VObj relayed))) <$>
           recipients (Some userId) (connections st)) ∧
    relayed !! "userId" = Some (VStr userId) ∧
    relayed !! "color" = Some (VStr userColor) ∧
    (∀ field, field ≠ "userId" → field ≠ "color" →
              relayed !! field = own_props message !! field).
Proof.
  intros Hparse Htype Hother relayed.
  rewrite (on_other _ _ _ message type) by auto using kind_of_other.
  eexists. split; [done|]. do 3 (split; [done|]).
  split; [|split].
  - unfold relayed. by rewrite lookup_insert_ne, lookup_insert_eq.
  - apply lookup_insert_eq.
  - intros field Hid Hcolor. unfold relayed. by rewrite !lookup_insert_ne.
Qed.

(** X4. A frame that parses to a number or to a boolean is no error to the
    handler: nothing is logged, and every other participant with an open
    transport is sent the object that holds the sender's [userId] and
    [color] and nothing else. *)
Theorem scalar_frame_is_relayed userId userColor (data : frame) message
    (st : State) :
  JSON_parse data = Some message →
  (∃ x, message = VNum x) ∨ (∃ b, message = VBool b) →
  on_message userId userColor data st
  = (Done tt,
     delivered
       (VObj (<["color" := VStr userColor]> (<["userId" := VStr userId]> ∅)))
       (Some userId) st) ∧
  console (delivered
       (VObj (<["color" := VStr userColor]> (<["userId" := VStr userId]> ∅)))
       (Some userId) st) = console st.
Proof.
  intros Hparse Hscalar. split; [|done].
  assert (Hprops : own_props message = ∅ ∧ read message "type" = Some VUndefined)
    by (destruct Hscalar as [[x ->]|[b ->]]; by split).
  destruct Hprops as [Hprops Htype].
  rewrite (on_other _ _ _ message VUndefined) by done.
  by rewrite Hprops.
Qed.

(** ** Who writes the history *)

(** X5. A frame that is neither a [save-state] nor a [clear] leaves the
    stored snapshots as they are; if it is no [undo] and no [redo] either,
    it leaves the cursor as it is. *)
Theorem history_is_written_by_commit_and_clear userId userColor (data : frame)
    (st : State) :
  (∀ message, ¬ frame_of_kind "save-state" data message) →
  (∀ message, ¬ frame_of_kind "clear" data message) →
  canvasStates (step (Message userId userColor data) st) = canvasStates st ∧
  ((∀ message, ¬ frame_of_kind "undo" data message) →
   (∀ message, ¬ frame_of_kind "redo" data message) →
   currentStateIndex (step (Message userId userColor data) st)
   = currentStateIndex st).
Proof.
  intros Hsave Hclear. cbn [step].
  destruct (JSON_parse data) as [message|] eqn:Hparse;
    [|by rewrite on_message_unparsed].
  destruct (read message "type") as [type|] eqn:Htype;
    [|by rewrite (on_message_untyped _ _ _ message)].
  pose proof (kind_of_spec type) as Hkind.
  destruct (kind_of type) eqn:Hk; try subst type.
  - destruct (read_total message "type" "userId") as [sender Hsender]; [by eexists|].
    rewrite (on_draw_end _ _ _ message sender) by done.
    by destruct (strict_eq_string sender userId).
  - rewrite (on_undo _ _ _ message) by done. cbv zeta.
    split; [by repeat case_decide|].
    intros Hundo _. by destruct (Hundo message).
  - rewrite (on_redo _ _ _ message) by done. cbv zeta.
    split; [by case_decide|].
    intros _ Hredo. by destruct (Hredo message).
  - by destruct (Hclear message).
  - by destruct (Hsave message).
  - by rewrite (on_draw _ _ _ message "draw-start") by (done || by left).
  - by rewrite (on_draw _ _ _ message "draw-move") by (done || by right).
  - by rewrite (on_other _ _ _ message type).
Qed.

(** ** Undo and redo, composed *)

(** X6. Undo and redo undo each other on the cursor and never touch the
    stored snapshots: a redo that has somewhere to go, followed by an undo,
    and an undo from a snapshot, followed by a redo, both end where they
    began. *)
Theorem undo_and_redo_are_inverse (u r : Event) (st : State) :
  undoes u → redoes r →
  (-1 ≤ currentStateIndex st < len (canvasStates st) - 1 →
     currentStateIndex (run [r; u] st) = currentStateIndex st ∧
     canvasStates (run [r; u] st) = canvasStates st) ∧
  (0 ≤ currentStateIndex st ≤ len (canvasStates st) - 1 →
     currentStateIndex (run [u; r] st) = currentStateIndex st ∧
     canvasStates (run [u; r] st) = canvasStates st).
Proof.
  intros Hu Hr. unfold run. cbn [foldl]. split; intros Hrange.
  - destruct (step_redo r st Hr) as [Hcur Hstates].
    destruct (step_undo u (step r st) Hu) as [-> ->].
    rewrite Hcur, Hstates. split; [|done]. repeat case_decide; lia.
  - destruct (step_undo u st Hu) as [Hcur Hstates].
    destruct (step_redo r (step u st) Hr) as [-> ->].
    rewrite Hcur, Hstates. split; [|done]. repeat case_decide; lia.
Qed.

(** X7. From a cursor at [-1] or above, [n] undos in a row leave the cursor
    at [current - n], stopped at [-1]; the stored snapshots stay. *)
Theorem undos_walk_back (evs : list Event) (st : State) :
  Forall undoes evs → -1 ≤ currentStateIndex st →
  currentStateIndex (run evs st)
  = Z.max (-1) (currentStateIndex st - Z.of_nat (length evs)) ∧
  canvasStates (run evs st) = canvasStates st.
Proof.
  intros Hevs. revert st.
  induction Hevs as [|ev evs Hev _ IH]; intros st Hcur.
  - cbn. split; [lia|done].
  - rewrite run_cons.
    destruct (step_undo ev st Hev) as [Hidx Hstates].
    destruct (IH (step ev st)) as [-> ->].
    + rewrite Hidx. repeat case_decide; lia.
    + rewrite Hidx, Hstates. split; [|done].
      cbn [length]. repeat case_decide; lia.
Qed.

(** X8. From a cursor at the last entry or below, [n] redos in a row leave
    the cursor at [current + n], stopped at [length - 1]; the stored
    snapshots stay. *)
Theorem redos_walk_forward (evs : list Event) (st : State) :
  Forall redoes evs → currentStateIndex st ≤ len (canvasStates st) - 1 →
  currentStateIndex (run evs st)
  = Z.min (len (canvasStates st) - 1)
          (currentStateIndex st + Z.of_nat (length evs)) ∧
  canvasStates (run evs st) = canvasStates st.
Proof.
  intros Hevs. revert st.
  induction Hevs as [|ev evs Hev _ IH]; intros st Hcur.
  - cbn. split; [lia|done].
  - rewrite run_cons.
    destruct (step_redo ev st Hev) as [Hidx Hstates].
    destruct (IH (step ev st)) as [-> ->].
    + rewrite Hidx, Hstates. case_decide; lia.
    + rewrite Hidx, Hstates. split; [|done].
      cbn [length]. case_decide; lia.
Qed.

(** ** Commits, composed *)

(** X9. After a commit the cursor has moved up by one and the snapshot read
    at the cursor is the one that was committed; this holds from every
    state, the cursor in range or not. *)
Theorem commit_is_current_snapshot (ev : Event) (snapshot : value) (st : State) :
  commits ev snapshot →
  currentStateIndex (step ev st) = currentStateIndex st + 1 ∧
  get (canvasStates (step ev st)) (currentStateIndex (step ev st)) = snapshot.
Proof.
  intros Hev. rewrite (step_commit ev snapshot) by done.
  cbn [with_history with_cursor canvasStates currentStateIndex].
  split; [done|]. unfold committed. apply get_set_eq.
Qed.

(** X10. With the cursor in range, a commit keeps every entry up to the
    old cursor, a redo right after it changes nothing, and an undo right
    after it brings the cursor back to where it was and leaves the stored
    snapshots as the commit left them. *)
Theorem commit_keeps_past_and_ends_redo (ev u r : Event) (snapshot : value)
    (st : State) :
  commits ev snapshot → undoes u → redoes r → cursor_in_range st →
  (∀ i, 0 ≤ i ≤ currentStateIndex st →
        get (canvasStates (step ev st)) i = get (canvasStates st) i) ∧
  (currentStateIndex (step r (step ev st)) = currentStateIndex (step ev st) ∧
   canvasStates (step r (step ev st)) = canvasStates (step ev st)) ∧
  (currentStateIndex (step u (step ev st)) = currentStateIndex st ∧
   canvasStates (step u (step ev st)) = canvasStates (step ev st)).
Proof.
  intros Hev Hu Hr Hrange. unfold cursor_in_range in Hrange.
  assert (Hcur : currentStateIndex (step ev st) = currentStateIndex st + 1)
    by (by rewrite (step_commit ev snapshot)).
  assert (Helems : elems (canvasStates (step ev st))
                   = take (Z.to_nat (currentStateIndex st + 1))
                          (elems (canvasStates st)) ++ [snapshot]).
  { rewrite (step_commit ev snapshot) by done.
    cbn [with_history canvasStates]. by apply elems_committed. }
  assert (Hlen : len (canvasStates (step ev st)) = currentStateIndex st + 2).
  { rewrite (step_commit ev snapshot) by done.
    cbn [with_history canvasStates]. by apply len_committed. }
  split; [|split].
  - intros i Hi. rewrite !get_in_range by lia. rewrite Helems.
    rewrite lookup_app_l by (rewrite length_take; unfold len in *; lia).
    by rewrite lookup_take_lt by lia.
  - destruct (step_redo r (step ev st) Hr) as [-> ->].
    rewrite Hcur, Hlen. by rewrite decide_False by lia.
  - destruct (step_undo u (step ev st) Hu) as [-> ->].
    rewrite Hcur. split; [|done]. repeat case_decide; lia.
Qed.

Lemma splice_from_end (a : Array) (start : Z) :
  start < 0 →
  elems (splice a start None)
  = take (Z.to_nat (Z.max (len a + start) 0)) (elems a).
Proof.
  intros Hstart. unfold splice. cbn [elems]. rewrite decide_True by done.
  replace (Z.max (len a + start) 0 + (len a - Z.max (len a + start) 0))
    with (len a) by lia.
  rewrite (drop_ge _ (Z.to_nat (len a))) by (unfold len; lia).
  apply app_nil_r.
Qed.

(** X11. With the cursor below [-1] (where the sweep can leave it), a
    commit appends nothing: it cuts [-(current + 1)] entries off the end of
    the history, or all of them if there are fewer, and stores the snapshot
    under the negative key [current + 1], outside the history. *)
Theorem commit_below_range_truncates (ev : Event) (snapshot : value) (st : State) :
  commits ev snapshot → currentStateIndex st < -1 →
  history (step ev st)
  = take (Z.to_nat (Z.max (len (canvasStates st) + currentStateIndex st + 1) 0))
         (history st) ∧
  currentStateIndex (step ev st) = currentStateIndex st + 1 ∧
  extra (canvasStates (step ev st)) !! (currentStateIndex st + 1) = Some snapshot.
Proof.
  intros Hev Hcur. rewrite (step_commit ev snapshot) by done.
  unfold history. cbn [with_history with_cursor canvasStates currentStateIndex].
  pose proof (len_nonneg (canvasStates st)) as Hlen.
  unfold committed. rewrite decide_True by lia.
  unfold set. rewrite decide_True by lia. cbn [elems extra].
  split; [|split; [done|apply lookup_insert_eq]].
  rewrite splice_from_end by lia.
  by replace (len (canvasStates st) + (currentStateIndex st + 1))
    with (len (canvasStates st) + currentStateIndex st + 1) by lia.
Qed.

(** ** The sweep, for every state *)

(** X12. The sweep keeps the newest 50 entries in their order (all of them
    if there are no more than 50), lowers the cursor by the number of
    entries it removed, and tells nobody: the registry, what has been sent
    and the log are as before. *)
Theorem sweep_keeps_newest (st : State) :
  let removed := Z.max 0 (len (canvasStates st) - RETENTION) in
  history (step Sweep st) = drop (Z.to_nat removed) (history st) ∧
  currentStateIndex (step Sweep st) = currentStateIndex st - removed ∧
  connections (step Sweep st) = connections st ∧
  outbox (step Sweep st) = outbox st ∧
  console (step Sweep st) = console st.
Proof.
  intros removed. rewrite step_sweep. unfold history, removed.
  destruct (decide (RETENTION < len (canvasStates st))) as [Hlong|Hshort].
  - cbn [with_cursor with_history canvasStates currentStateIndex
         connections outbox console].
    rewrite Z.max_r by lia.
    rewrite splice_head by (unfold RETENTION in *; lia). done.
  - rewrite Z.max_l by lia. cbn. repeat split. lia.
Qed.

(** X13. A second sweep right after a sweep changes nothing. *)
Theorem sweep_is_idempotent (st : State) :
  step Sweep (step Sweep st) = step Sweep st.
Proof.
  rewrite (step_sweep (step Sweep st)).
  rewrite decide_False; [done|]. pose proof (sweep_caps_length st). lia.
Qed.

(** X14. From a state with the cursor in range, the sweep leaves the
    cursor in range exactly when the cursor was at [removed - 1] or above,
    [removed] being the number of entries that the sweep trims. *)
Theorem sweep_in_range_iff (st : State) :
  cursor_in_range st →
  let removed := Z.max 0 (len (canvasStates st) - RETENTION) in
  cursor_in_range (step Sweep st) ↔ removed - 1 ≤ currentStateIndex st.
Proof.
  intros Hrange removed. unfold cursor_in_range, removed in *.
  rewrite step_sweep.
  destruct (decide (RETENTION < len (canvasStates st))) as [Hlong|Hshort].
  - cbn [with_cursor with_history canvasStates currentStateIndex].
    assert (Hlen : len (splice (canvasStates st) 0
                          (Some (len (canvasStates st) - RETENTION))) = RETENTION).
    { unfold len at 1. rewrite splice_head by (unfold RETENTION in *; lia).
      rewrite length_drop. unfold len, RETENTION in *. lia. }
    rewrite Hlen. lia.
  - lia.
Qed.

(** ** The one timeline *)

(** X24. What a frame does to the history and to the cursor does not depend
    on the connection it arrives on: the same frame from any two
    participants leaves the same snapshots and the same cursor. *)
Theorem history_effect_ignores_sender userId userColor userId' userColor'
    (data : frame) (st : State) :
  canvasStates (step (Message userId userColor data) st)
  = canvasStates (step (Message userId' userColor' data) st) ∧
  currentStateIndex (step (Message userId userColor data) st)
  = currentStateIndex (step (Message userId' userColor' data) st).
Proof.
  cbn [step].
  destruct (JSON_parse data) as [message|] eqn:Hparse;
    [|by rewrite !on_message_unparsed].
  destruct (read message "type") as [type|] eqn:Htype;
    [|by rewrite !(on_message_untyped _ _ _ message)].
  pose proof (kind_of_spec type) as Hkind.
  destruct (kind_of type) eqn:Hk; try subst type.
  - destruct (read_total message "type" "userId") as [sender Hsender]; [by eexists|].
    rewrite !(on_draw_end _ _ _ message sender) by done.
    by destruct (strict_eq_string sender userId),
                (strict_eq_string sender userId').
  - rewrite !(on_undo _ _ _ message) by done. cbv zeta. by repeat case_decide.
  - rewrite !(on_redo _ _ _ message) by done. cbv zeta. by case_decide.
  - by rewrite !(on_clear _ _ _ message) by done.
  - destruct (read_total message "type" "stateData") as [stateData Hdata];
      [by eexists|].
    rewrite !(on_save_state _ _ _ message stateData) by done.
    by destruct (truthy stateData).
  - by rewrite !(on_draw _ _ _ message "draw-start") by (done || by left).
  - by rewrite !(on_draw _ _ _ message "draw-move") by (done || by right).
  - by rewrite !(on_other _ _ _ message type).
Qed.

(** ** Broadcast *)

(** X15. With distinct keys in the registry, [broadcastToAll] changes
    nothing but what has been sent: it appends the one frame once for each
    registered participant whose transport is open and who is not the
    excluded one, in the order of registration, and for nobody else. *)
Theorem broadcast_reaches_each_open_participant_once (message : value)
    (excludeUserId : option string) (st : State) :
  keys_distinct st →
  ∃ st' keys,
    broadcastToAll message excludeUserId st = (Done tt, st') ∧
    connections st' = connections st ∧
    canvasStates st' = canvasStates st ∧
    currentStateIndex st' = currentStateIndex st ∧
    console st' = console st ∧
    outbox st' = outbox st ++ ((fun key => (key, JSON_stringify message)) <$> keys) ∧
    NoDup keys ∧
    keys `sublist_of` (connections st).*1 ∧
    ∀ key, key ∈ keys ↔
           Some key ≠ excludeUserId ∧
           ∃ user, (key, user) ∈ connections st ∧ readyState (ws user) = OPEN.
Proof.
  intros Hdistinct.
  exists (delivered message excludeUserId st),
         (recipients excludeUserId (connections st)).
  split; [apply broadcastToAll_delivers|].
  do 5 (split; [done|]).
  assert (Hsub : recipients excludeUserId (connections st)
                 `sublist_of` (connections st).*1).
  { unfold recipients. apply fmap_sublist, sublist_filter. }
  split; [by eapply sublist_NoDup|]. split; [done|].
  apply elem_of_recipients.
Qed.

(** ** Registration *)

Lemma map_set_keys (key : string) (user : User) (entries : list (string * User)) :
  (map_set key user entries).*1
  = if decide (key ∈ entries.*1) then entries.*1 else entries.*1 ++ [key].
Proof.
  induction entries as [|[k u] rest IH]; [done|].
  cbn [map_set fmap list_fmap fst]. destruct (decide (k = key)) as [->|Hne].
  - rewrite decide_True by set_solver. done.
  - cbn [fmap list_fmap fst]. rewrite IH.
    destruct (decide (key ∈ rest.*1)) as [Hin|Hnin].
    + rewrite decide_True by set_solver. done.
    + rewrite decide_False by set_solver. done.
Qed.

Lemma map_set_fresh (key : string) (user : User) (entries : list (string * User)) :
  key ∉ entries.*1 → map_set key user entries = entries ++ [(key, user)].
Proof.
  induction entries as [|[k u] rest IH]; [done|].
  intros Hfresh. cbn [map_set]. rewrite decide_False by set_solver.
  rewrite IH by set_solver. done.
Qed.

Lemma map_set_lookup (key : string) (user : User) (entries : list (string * User)) :
  (key, user) ∈ map_set key user entries.
Proof.
  induction entries as [|[k u] rest IH]; [set_solver|].
  cbn [map_set]. destruct (decide (k = key)); set_solver.
Qed.

Lemma map_delete_fresh (key : string) (entries : list (string * User)) :
  key ∉ entries.*1 → map_delete key entries = entries.
Proof.
  unfold map_delete. induction entries as [|[k u] rest IH]; [done|].
  intros Hfresh. rewrite filter_cons_True by set_solver.
  by rewrite IH by set_solver.
Qed.

Lemma map_delete_keys (key : string) (entries : list (string * User)) :
  key ∉ (map_delete key entries).*1.
Proof.
  unfold map_delete. intros Hin.
  apply list_elem_of_fmap in Hin as ([k u] & -> & Hin).
  apply list_elem_of_filter in Hin as [Hne _]. by apply Hne.
Qed.

Ltac unfold_registration :=
  cbv beta iota zeta delta
    [try_catch mbind M_bind mret M_ret or_throw throw gets modify
     set_currentStateIndex set_canvasStates set_connections send console_error].

Lemma on_connection_runs (ws : WebSocket) userId userColor (st : State) :
  on_connection ws userId userColor st
  = (Done tt,
     let userName := user_name (connections st) in
     let entries :=
       map_set userId (mkUser ws userColor userName userId) (connections st) in
     delivered (user_joined_message userId userColor userName) None
       (mkServer entries (canvasStates st) (currentStateIndex st)
          (outbox st ++
             [(userId, JSON_stringify (welcome_message userId userColor));
              (userId, JSON_stringify (user_list_message entries))] ++
             (if decide (0 ≤ currentStateIndex st)
              then [(userId,
                     JSON_stringify
                       (canvas_state_message (currentStateIndex st)
                          (get (canvasStates st) (currentStateIndex st))))]
              else []))
          (console st))).
Proof.
  unfold on_connection. unfold_registration.
  cbn [connections canvasStates currentStateIndex outbox console].
  destruct (decide (0 ≤ currentStateIndex st));
    unfold_registration;
    cbn [connections canvasStates currentStateIndex outbox console];
    rewrite broadcastToAll_delivers; cbv zeta;
    rewrite <- ?app_assoc; cbn [app]; try rewrite app_nil_r; reflexivity.
Qed.

Lemma on_close_runs userId (st : State) :
  on_close userId st
  = (Done tt,
     delivered (user_left_message userId) None
       (mkServer (map_delete userId (connections st)) (canvasStates st)
          (currentStateIndex st) (outbox st) (console st))).
Proof.
  unfold on_close. unfold_registration. by rewrite broadcastToAll_delivers.
Qed.

(** X16. A connection under an id that is not registered yet goes last in
    the registry, with the name [User n] for the [n]th entry, and leaves the
    history and the cursor alone. The newcomer is sent [welcome], then
    [user-list] with every participant in the order of registration, itself
    last, then, if and only if the cursor is at a snapshot, [canvas-state]
    with the cursor and the snapshot under it; after that every participant
    with an open transport, the newcomer among them, is sent
    [user-joined]. *)
Theorem connection_greets_newcomer (ws : WebSocket) userId userColor (st : State) :
  userId ∉ (connections st).*1 →
  let userName := user_name (connections st) in
  let entries := connections st ++ [(userId, mkUser ws userColor userName userId)] in
  ∃ st',
    on_connection ws userId userColor st = (Done tt, st') ∧
    connections st' = entries ∧
    canvasStates st' = canvasStates st ∧
    currentStateIndex st' = currentStateIndex st ∧
    outbox st' =
      outbox st ++
        [(userId, JSON_stringify (welcome_message userId userColor));
         (userId, JSON_stringify (user_list_message entries))] ++
        (if decide (0 ≤ currentStateIndex st)
         then [(userId,
                JSON_stringify
                  (canvas_state_message (currentStateIndex st)
                     (get (canvasStates st) (currentStateIndex st))))]
         else []) ++
        ((fun key =>
            (key, JSON_stringify (user_joined_message userId userColor userName))) <$>
           recipients None entries) ∧
    (readyState ws = OPEN → userId ∈ recipients None entries).
Proof.
  intros Hfresh userName entries. rewrite on_connection_runs. cbv zeta.
  fold userName. rewrite map_set_fresh by done. fold entries.
  eexists. split; [done|].
  cbn [delivered connections canvasStates currentStateIndex outbox].
  do 3 (split; [done|]). split.
  - by rewrite <- !app_assoc.
  - intros Hopen. apply elem_of_recipients. split; [done|].
    exists (mkUser ws userColor userName userId). split; [|exact Hopen].
    unfold entries. set_solver.
Qed.

(** X17. Who connects after a commit made with the cursor at [-1] or above
    is sent a [canvas-state] frame that carries the committed snapshot and
    its index. *)
Theorem late_joiner_gets_last_commit (ev : Event) (snapshot : value)
    (ws : WebSocket) userId userColor (st : State) :
  commits ev snapshot → -1 ≤ currentStateIndex st →
  (userId,
   JSON_stringify (canvas_state_message (currentStateIndex st + 1) snapshot))
  ∈ outbox (on_connection ws userId userColor (step ev st)).2.
Proof.
  intros Hev Hcur. rewrite on_connection_runs. cbv zeta.
  rewrite (step_commit ev snapshot) by done.
  cbn [snd delivered with_history with_cursor
       connections canvasStates currentStateIndex outbox].
  rewrite decide_True by lia. unfold committed. rewrite get_set_eq.
  set_solver.
Qed.

(** X18. A connection under an id that is not registered yet, followed by
    the close of that connection, leaves the registry, the history and the
    cursor as they were. *)
Theorem connect_then_close_restores_registry (ws : WebSocket) userId userColor
    (st : State) :
  userId ∉ (connections st).*1 →
  let st1 := (on_connection ws userId userColor st).2 in
  let st2 := (on_close userId st1).2 in
  connections st2 = connections st ∧
  canvasStates st2 = canvasStates st ∧
  currentStateIndex st2 = currentStateIndex st.
Proof.
  intros Hfresh st1 st2. unfold st2, st1.
  rewrite on_close_runs, on_connection_runs. cbv zeta.
  cbn [snd delivered connections canvasStates currentStateIndex].
  split; [|done].
  rewrite map_set_fresh by done. unfold map_delete.
  rewrite filter_app. fold (map_delete userId (connections st)).
  rewrite map_delete_fresh by done.
  rewrite filter_cons_False by (cbn; tauto).
  rewrite filter_nil. apply app_nil_r.
Qed.

(** X19. The keys of the registry stay distinct: through a connection under
    any id (one that is registered already takes over the entry), through a
    close, through every frame and through the sweep. *)
Theorem keys_stay_distinct (ws : WebSocket) userId userColor (ev : Event)
    (st : State) :
  keys_distinct st →
  keys_distinct (on_connection ws userId userColor st).2 ∧
  keys_distinct (on_close userId st).2 ∧
  keys_distinct (step ev st).
Proof.
  unfold keys_distinct. intros Hdistinct. split; [|split].
  - rewrite on_connection_runs. cbv zeta. cbn [snd delivered connections].
    rewrite map_set_keys. case_decide as Hin; [done|].
    apply NoDup_app. split; [done|]. split; [|apply NoDup_singleton].
    intros key Hkey ->%list_elem_of_singleton. done.
  - rewrite on_close_runs. cbn [snd delivered connections].
    eapply sublist_NoDup; [exact Hdistinct|].
    unfold map_delete. apply fmap_sublist, sublist_filter.
  - destruct ev as [uid col data|].
    + cbn [step].
      destruct (handler_shape_connections uid col data st) as [st' [Hrun Hconn]].
      rewrite Hrun. cbn [snd]. by rewrite Hconn.
    + rewrite step_sweep. by case_decide.
Qed.

(** X20. A close removes the entry of the closing connection and no other,
    leaves the history and the cursor alone, and sends [user-left] to the
    participants that remain and have an open transport, never to the one
    that left; the close of an id that is not registered leaves the registry
    as it is. *)
Theorem close_unregisters userId (st : State) :
  ∃ st',
    on_close userId st = (Done tt, st') ∧
    (∀ key user, (key, user) ∈ connections st' ↔
                 (key ≠ userId ∧ (key, user) ∈ connections st)) ∧
    canvasStates st' = canvasStates st ∧
    currentStateIndex st' = currentStateIndex st ∧
    outbox st' =
      outbox st ++
        ((fun key => (key, JSON_stringify (user_left_message userId))) <$>
           recipients None (connections st')) ∧
    (userId ∉ recipients None (connections st')) ∧
    (userId ∉ (connections st).*1 → connections st' = connections st).
Proof.
  rewrite on_close_runs. eexists. split; [done|].
  cbn [delivered connections canvasStates currentStateIndex outbox].
  split; [|do 3 (split; [done|]); split].
  - intros key user. unfold map_delete. rewrite list_elem_of_filter. done.
  - intros Hin. apply elem_of_recipients in Hin as (_ & user & Hin & _).
    apply (map_delete_keys userId (connections st)).
    apply list_elem_of_fmap. by exists (userId, user).
  - apply map_delete_fresh.
Qed.

End Facts.

(** ** The path filter *)

Section PathFilter.

Import Http.

Lemma remove_dotdot_head (c : Ascii.ascii) (rest : string) :
  c ≠ dot → remove_dotdot (String c rest) = String c (remove_dotdot rest).
Proof.
  intros Hc. destruct rest as [|c2 rest]; [done|].
  cbn [remove_dotdot]. by rewrite (proj2 (Ascii.eqb_neq c dot) Hc).
Qed.

Lemma remove_dotdot_cons (c1 c2 : Ascii.ascii) (rest : string) :
  remove_dotdot (String c1 (String c2 rest))
  = if Ascii.eqb c1 dot && Ascii.eqb c2 dot
    then remove_dotdot rest
    else String c1 (remove_dotdot (String c2 rest)).
Proof. reflexivity. Qed.

Lemma includes_dotdot_cons (c1 c2 : Ascii.ascii) (rest : string) :
  includes_dotdot (String c1 (String c2 rest))
  = (Ascii.eqb c1 dot && Ascii.eqb c2 dot) || includes_dotdot (String c2 rest).
Proof. reflexivity. Qed.

Lemma remove_dotdot_clean_step (url : string) :
  includes_dotdot (remove_dotdot url) = false ∧
  ∀ c, includes_dotdot (remove_dotdot (String c url)) = false.
Proof.
  induction url as [|c2 rest [IHrest IHcons]]; [by split|].
  split; [apply IHcons|]. intros c1. rewrite remove_dotdot_cons.
  destruct (Ascii.eqb_spec c1 dot) as [->|Hc1];
    destruct (Ascii.eqb_spec c2 dot) as [->|Hc2]; cbn [andb];
    try exact IHrest.
  - rewrite remove_dotdot_head by done. rewrite includes_dotdot_cons.
    rewrite (proj2 (Ascii.eqb_neq c2 dot) Hc2), andb_false_r. cbn [orb].
    rewrite <- (remove_dotdot_head c2 rest Hc2). apply IHcons.
  - specialize (IHcons dot).
    destruct (remove_dotdot (String dot rest)) as [|c' tail] eqn:Hr; [done|].
    rewrite includes_dotdot_cons.
    by rewrite (proj2 (Ascii.eqb_neq c1 dot) Hc1).
  - specialize (IHcons c2).
    destruct (remove_dotdot (String c2 rest)) as [|c' tail] eqn:Hr; [done|].
    rewrite includes_dotdot_cons.
    by rewrite (proj2 (Ascii.eqb_neq c1 dot) Hc1).
Qed.

Lemma includes_dotdot_app (pre post : string) :
  includes_dotdot (pre +:+ ".." +:+ post) = true.
Proof.
  induction pre as [|c pre IH]; [reflexivity|].
  destruct pre as [|c' pre].
  - change (includes_dotdot (String c (String dot (String dot post))) = true).
    rewrite includes_dotdot_cons.
    change (includes_dotdot (String dot (String dot post))) with true.
    apply orb_true_r.
  - change (includes_dotdot
              (String c (String c' (pre +:+ ".." +:+ post))) = true).
    rewrite includes_dotdot_cons.
    change (includes_dotdot (String c' pre +:+ ".." +:+ post) = true) in IH.
    change (includes_dotdot (String c' (pre +:+ ".." +:+ post)) = true) in IH.
    rewrite IH. apply orb_true_r.
Qed.

(** X21. What the filter of the requested path returns holds no two dots in
    a row: one pass removes them all, whatever the path. *)
Theorem remove_dotdot_leaves_none (url : string) :
  includes_dotdot (remove_dotdot url) = false ∧
  ∀ pre post, remove_dotdot url ≠ pre +:+ ".." +:+ post.
Proof.
  destruct (remove_dotdot_clean_step url) as [Hclean _].
  split; [exact Hclean|]. intros pre post Heq.
  rewrite Heq, includes_dotdot_app in Hclean. discriminate.
Qed.

Lemma remove_dotdot_id_step (url : string) :
  (includes_dotdot url = false → remove_dotdot url = url) ∧
  ∀ c, includes_dotdot (String c url) = false →
       remove_dotdot (String c url) = String c url.
Proof.
  induction url as [|c2 rest [IHrest IHcons]]; [by split|].
  split; [apply IHcons|]. intros c1.
  rewrite remove_dotdot_cons, includes_dotdot_cons.
  destruct (Ascii.eqb c1 dot && Ascii.eqb c2 dot); [done|].
  cbn [orb]. intros Hrest. by rewrite (IHcons c2 Hrest).
Qed.

(** X22. The filter returns a path without two dots in a row as it is, and
    filtering twice is filtering once. *)
Theorem remove_dotdot_is_idempotent (url : string) :
  (includes_dotdot url = false → remove_dotdot url = url) ∧
  remove_dotdot (remove_dotdot url) = remove_dotdot url.
Proof.
  split; [apply remove_dotdot_id_step|].
  apply remove_dotdot_id_step, remove_dotdot_clean_step.
Qed.

End PathFilter.

(** ** The server on concrete frames *)

Section Runs.

Import Loopback.

Lemma push_commits (snapshot : string) :
  snapshot ≠ EmptyString → commits (push snapshot) (VStr snapshot).
Proof.
  intros Hne. exists (obj [("type", VStr "save-state"); ("stateData", VStr snapshot)]).
  split; [split; reflexivity|]. split; [reflexivity|].
  destruct snapshot; [done|reflexivity].
Defined.

Lemma undo_undoes : undoes undo.
Proof. exists undo_request. split; reflexivity. Defined.

Lemma start_fresh : fresh start.
Proof. split; reflexivity. Defined.

Lemma malformed_frame_is_swallowed_witness :
  ∃ error st',
    on_message "user-1" "#FF6B6B" (None : option value) start = (Done tt, st') ∧
    console st' = console start ++ [ErrorParsingMessage error] ∧
    connections st' = connections start ∧
    canvasStates st' = canvasStates start ∧
    currentStateIndex st' = currentStateIndex start ∧
    outbox st' = outbox start.
Proof.
  apply (malformed_frame_is_swallowed "user-1" "#FF6B6B" None start).
  left. reflexivity.
Defined.

(** C9, as the specification states it, fails on frames that parse, but not
    to a record: the number [42], the boolean [false], the string [hi] and
    the empty array arrive on the connection of [user-1]. Nothing is thrown
    and nothing is logged, and each is relayed to [user-2], the other
    participant with an open transport; for [42] what is relayed is the
    object that holds the sender's [userId] and [color]. *)
Lemma frames_that_are_no_record_are_relayed :
  on_message "user-1" "#FF6B6B" (Some (VNum 42%float)) start
  = (Done tt,
     mkServer (connections start) (canvasStates start) (currentStateIndex start)
       [("user-2",
         Some (VObj (<["color" := VStr "#FF6B6B"]>
                       (<["userId" := VStr "user-1"]> ∅))))]
       []) ∧
  Forall
    (fun message : value =>
       ∃ st' sent,
         on_message "user-1" "#FF6B6B" (Some message) start = (Done tt, st') ∧
         console st' = console start ∧
         outbox st' = [("user-2", sent)] ∧
         outbox st' ≠ outbox start)
    [VNum 42%float; VBool false; VStr "hi"; VArr []].
Proof.
  split; [vm_compute; reflexivity|].
  repeat (apply List.Forall_cons); try apply List.Forall_nil;
    (eexists _, _; split; [vm_compute; reflexivity|];
     split; [reflexivity|]; split; [reflexivity|discriminate]).
Qed.

(** C1, as the specification states it, fails on the frame that the client
    sends: [draw-end] without a [userId] field arrives on the connection of
    [user-1], two participants have an open transport, and the handler
    returns with the state as it was, nothing sent. *)
Lemma draw_end_without_id_is_dropped :
  frame_of_kind "draw-end" (Some client_draw_end) client_draw_end ∧
  recipients None (connections start) = ["user-1"; "user-2"] ∧
  on_message "user-1" "#FF6B6B" (Some client_draw_end) start = (Done tt, start) ∧
  on_message "user-1" "#FF6B6B" (Some client_draw_end) start
  ≠ (Done tt, delivered (save_state_request "user-1") None start).
Proof.
  assert (Hrun : on_message "user-1" "#FF6B6B" (Some client_draw_end) start
                 = (Done tt, start)) by (vm_compute; reflexivity).
  split; [split; reflexivity|]. split; [reflexivity|]. split; [exact Hrun|].
  rewrite Hrun. intros Heq.
  apply (f_equal (fun r => length (outbox r.2))) in Heq.
  vm_compute in Heq. discriminate.
Qed.

Lemma draw_end_requests_save_when_stamped_witness :
  on_message "user-1" "#FF6B6B" (Some stamped_draw_end) start
  = (Done tt, delivered (save_state_request "user-1") None start) ∧
  on_message "user-2" "#4ECDC4" (Some stamped_draw_end) start = (Done tt, start).
Proof.
  split.
  - apply (draw_end_requests_save_when_stamped "user-1" "#FF6B6B"
             (Some stamped_draw_end) stamped_draw_end (VStr "user-1") start);
      [split; reflexivity | reflexivity | reflexivity].
  - apply (draw_end_requests_save_when_stamped "user-2" "#4ECDC4"
             (Some stamped_draw_end) stamped_draw_end (VStr "user-1") start);
      [split; reflexivity | reflexivity | discriminate].
Defined.

Lemma undo_case_split_witness :
  let two := run [push "A"; push "B"] start in
  let one := run [push "A"] start in
  on_message "user-2" "#4ECDC4" (Some undo_request) two
  = (Done tt, delivered (undo_message 0 (VStr "A")) None (with_cursor 0 two)) ∧
  on_message "user-2" "#4ECDC4" (Some undo_request) one
  = (Done tt, delivered (undo_message (-1) VNull) None (with_cursor (-1) one)) ∧
  on_message "user-2" "#4ECDC4" (Some undo_request) start = (Done tt, start).
Proof.
  intros two one.
  assert (Hframe : frame_of_kind "undo" (Some undo_request) undo_request)
    by (split; reflexivity).
  split; [|split].
  - destruct (undo_case_split "user-2" "#4ECDC4" _ _ two Hframe) as (Hpos & _ & _).
    apply Hpos. reflexivity.
  - destruct (undo_case_split "user-2" "#4ECDC4" _ _ one Hframe) as (_ & Hzero & _).
    apply Hzero. reflexivity.
  - destruct (undo_case_split "user-2" "#4ECDC4" _ _ start Hframe) as (_ & _ & Hneg).
    apply Hneg. reflexivity.
Defined.

Lemma redo_case_split_witness :
  let undone := run [push "A"; push "B"; undo] start in
  let latest := run [push "A"; push "B"] start in
  on_message "user-2" "#4ECDC4" (Some redo_request) undone
  = (Done tt, delivered (redo_message 1 (VStr "B")) None (with_cursor 1 undone)) ∧
  on_message "user-2" "#4ECDC4" (Some redo_request) latest = (Done tt, latest).
Proof.
  intros undone latest.
  assert (Hframe : frame_of_kind "redo" (Some redo_request) redo_request)
    by (split; reflexivity).
  split.
  - destruct (redo_case_split "user-2" "#4ECDC4" _ _ undone Hframe) as (Hbelow & _).
    apply Hbelow. reflexivity.
  - destruct (redo_case_split "user-2" "#4ECDC4" _ _ latest Hframe) as (_ & Hlast).
    apply Hlast. reflexivity.
Defined.

Lemma save_state_needs_payload_witness :
  on_message "user-1" "#FF6B6B"
    (Some (obj [("type", VStr "save-state"); ("stateData", VNull)])) start
  = (Done tt, start).
Proof.
  destruct (save_state_needs_payload "user-1" "#FF6B6B"
              (Some (obj [("type", VStr "save-state"); ("stateData", VNull)]))
              (obj [("type", VStr "save-state"); ("stateData", VNull)]) start)
    as (_ & Hnull & _); [split; reflexivity|].
  apply Hnull. reflexivity.
Defined.

Lemma drawing_is_relayed_to_others_witness :
  recipients (Some "user-1") (connections start) = ["user-2"] ∧
  ∃ st',
    on_message "user-1" "#FF6B6B" (Some draw_move) start = (Done tt, st') ∧
    canvasStates st' = canvasStates start ∧
    currentStateIndex st' = currentStateIndex start ∧
    outbox st' =
      outbox start ++
        ((fun key =>
            (key, JSON_stringify
                    (VObj (<["userId" := VStr "user-1"]> (own_props draw_move))))) <$>
           recipients (Some "user-1") (connections start)).
Proof.
  destruct (drawing_is_relayed_to_others "user-1" "#FF6B6B" (Some draw_move)
              draw_move "draw-move" start)
    as (st' & Hrun & Hstates & Hcur & Hout & _);
    [by right | split; reflexivity |].
  split; [reflexivity|]. exists st'. by repeat split.
Defined.

Lemma cursor_stays_in_range_witness :
  Forall cursor_in_range
    (trace [push "A"; push "B"; undo; undo; undo; redo; push "C"; redo] start).
Proof.
  apply (cursor_stays_in_range _ start start_fresh).
  repeat (apply List.Forall_cons); try apply List.Forall_nil;
    first [ left; exists (VStr "A"); by apply (push_commits "A")
          | left; exists (VStr "B"); by apply (push_commits "B")
          | left; exists (VStr "C"); by apply (push_commits "C")
          | right; left; exact undo_undoes
          | right; right; exists redo_request; split; reflexivity ].
Defined.

Lemma pushes_commit (n : nat) : Forall commit_event (pushes n).
Proof.
  unfold pushes. apply Forall_fmap, Forall_forall. intros i _.
  exists (VStr ("snapshot-" +:+ pretty i)). by apply push_commits.
Defined.

(** C3, as the specification states it, fails on 55 commits from the empty
    history: no commit trims, the history has 55 entries and the cursor is
    54, not 50 and 49. *)
Lemma fifty_five_pushes_exceed_the_cap :
  Forall commit_event (pushes 55) ∧
  len (canvasStates (run (pushes 55) start)) = 55 ∧
  currentStateIndex (run (pushes 55) start) = 54 ∧
  ¬ len (canvasStates (run (pushes 55) start)) ≤ RETENTION.
Proof.
  assert (Hlen : len (canvasStates (run (pushes 55) start)) = 55)
    by (vm_compute; reflexivity).
  split; [apply pushes_commit|]. split; [exact Hlen|].
  split; [vm_compute; reflexivity|].
  rewrite Hlen. unfold RETENTION. lia.
Qed.

Lemma retention_is_applied_by_the_sweep_witness :
  len (canvasStates (step Sweep (run (pushes 55) start))) ≤ RETENTION ∧
  len (canvasStates (run (pushes 55) start)) = 55 ∧
  currentStateIndex (run (pushes 55) start) = 54 ∧
  len (canvasStates (step Sweep (run (pushes 55) start))) = 50 ∧
  currentStateIndex (step Sweep (run (pushes 55) start)) = 49.
Proof.
  apply (retention_is_applied_by_the_sweep (pushes 55) start
           (run (pushes 55) start) start_fresh (pushes_commit 55)).
  reflexivity.
Defined.


(** ** The sweep below the cursor *)

(** C5. The sweep does not keep the cursor on its snapshot when the cursor
    lies among the entries it trims. After 52 commits and 51 undos the
    history has 52 entries and the cursor is 0, on [snapshot-0], in range.
    The sweep trims 2 entries and subtracts 2 from the cursor: the cursor
    is then [-2], outside [-1 .. length - 1], and nothing is stored under
    it. *)
Theorem sweep_drives_cursor_below_range :
  let before := run (pushes 52 ++ undos 51) start in
  let after := step Sweep before in
  (len (canvasStates before) = 52 ∧
   currentStateIndex before = 0 ∧
   get (canvasStates before) (currentStateIndex before) = VStr "snapshot-0" ∧
   cursor_in_range before) ∧
  (len (canvasStates after) = 50 ∧
   currentStateIndex after = -2 ∧
   get (canvasStates after) (currentStateIndex after) = VUndefined ∧
   ¬ cursor_in_range after).
Proof.
  intros before after.
  assert (Hlen : len (canvasStates before) = 52) by (vm_compute; reflexivity).
  assert (Hcur : currentStateIndex before = 0) by (vm_compute; reflexivity).
  assert (Hlen' : len (canvasStates after) = 50) by (vm_compute; reflexivity).
  assert (Hcur' : currentStateIndex after = -2) by (vm_compute; reflexivity).
  split.
  - split; [exact Hlen|]. split; [exact Hcur|].
    split; [vm_compute; reflexivity|].
    unfold cursor_in_range. rewrite Hlen, Hcur. lia.
  - split; [exact Hlen'|]. split; [exact Hcur'|].
    split; [vm_compute; reflexivity|].
    unfold cursor_in_range. rewrite Hlen', Hcur'. lia.
Qed.

(** ** The further facts on concrete frames *)

Ltac by_decide :=
  match goal with
  | |- ?P => apply (bool_decide_unpack P); vm_compute; exact I
  end.

Lemma redo_redoes : redoes redo.
Proof. exists redo_request. split; reflexivity. Defined.

Lemma start_distinct : keys_distinct start.
Proof. unfold keys_distinct. by_decide. Defined.

Lemma start_in_range : cursor_in_range start.
Proof. split; vm_compute; discriminate. Defined.

Lemma message_keeps_cursor_in_range_witness :
  cursor_in_range (step (push "A") start).
Proof.
  apply (message_keeps_cursor_in_range "user-1" "#FF6B6B"
           (Some (obj [("type", VStr "save-state"); ("stateData", VStr "A")]))
           start start_in_range).
Defined.

Lemma sweep_keeps_snapshot_witness :
  currentStateIndex (step Sweep (run (pushes 55) start)) = 54 - 5 ∧
  get (canvasStates (step Sweep (run (pushes 55) start))) 49
  = get (canvasStates (run (pushes 55) start)) 54.
Proof.
  destruct (sweep_keeps_snapshot (run (pushes 55) start))
    as (Hcur & _ & Hget & _); [vm_compute; reflexivity|vm_compute; discriminate|].
  split; [exact Hcur|]. exact Hget.
Defined.

Lemma clear_resets_history_witness :
  ∃ st',
    on_message "user-2" "#4ECDC4" (Some (obj [("type", VStr "clear")])) swept_below
    = (Done tt, st') ∧
    history st' = [] ∧ currentStateIndex st' = -1.
Proof.
  destruct (clear_resets_history "user-2" "#4ECDC4"
              (Some (obj [("type", VStr "clear")])) (obj [("type", VStr "clear")])
              swept_below)
    as (st' & Hrun & Hhistory & Hcur & _); [split; reflexivity|].
  exists st'. by repeat split.
Defined.

Lemma unknown_kind_is_relayed_witness :
  ∃ st',
    on_message "user-1" "#FF6B6B" (Some cursor_move) start = (Done tt, st') ∧
    outbox st' =
      [("user-2",
        Some (VObj (<["color" := VStr "#FF6B6B"]>
                      (<["userId" := VStr "user-1"]> (own_props cursor_move)))))].
Proof.
  destruct (unknown_kind_is_relayed "user-1" "#FF6B6B" (Some cursor_move)
              cursor_move (VStr "cursor-move") start)
    as (st' & Hrun & _ & _ & Hout & _).
  - reflexivity.
  - reflexivity.
  - intros kind [= <-]. unfold own_kinds. by_decide.
  - exists st'. split; [exact Hrun|exact Hout].
Defined.

Lemma scalar_frame_is_relayed_witness :
  on_message "user-1" "#FF6B6B" (Some (VNum 42%float)) start
  = (Done tt,
     delivered
       (VObj (<["color" := VStr "#FF6B6B"]> (<["userId" := VStr "user-1"]> ∅)))
       (Some "user-1") start).
Proof.
  apply (scalar_frame_is_relayed "user-1" "#FF6B6B" (Some (VNum 42%float))
           (VNum 42%float) start); [reflexivity|].
  left. by eexists.
Defined.

Lemma history_is_written_by_commit_and_clear_witness :
  canvasStates (step (Message "user-1" "#FF6B6B" (Some undo_request))
                  (run [push "A"] start))
  = canvasStates (run [push "A"] start).
Proof.
  apply (history_is_written_by_commit_and_clear "user-1" "#FF6B6B"
           (Some undo_request) (run [push "A"] start)).
  - intros message [[= <-] Htype]. vm_compute in Htype. discriminate.
  - intros message [[= <-] Htype]. vm_compute in Htype. discriminate.
Defined.

Lemma undo_and_redo_are_inverse_witness :
  currentStateIndex (run [redo; undo] (run [push "A"; push "B"; undo] start)) = 0 ∧
  currentStateIndex (run [undo; redo] (run [push "A"; push "B"] start)) = 1.
Proof.
  split.
  - destruct (undo_and_redo_are_inverse undo redo
                (run [push "A"; push "B"; undo] start) undo_undoes redo_redoes)
      as [Hfirst _].
    destruct Hfirst as [Hcur _]; [split; vm_compute; [discriminate|reflexivity]|].
    exact Hcur.
  - destruct (undo_and_redo_are_inverse undo redo
                (run [push "A"; push "B"] start) undo_undoes redo_redoes)
      as [_ Hsecond].
    destruct Hsecond as [Hcur _]; [split; vm_compute; discriminate|].
    exact Hcur.
Defined.

Lemma undos_walk_back_witness :
  currentStateIndex (run (undos 5) (run (pushes 3) start)) = -1.
Proof.
  destruct (undos_walk_back (undos 5) (run (pushes 3) start)) as [Hcur _].
  - apply Forall_replicate, undo_undoes.
  - vm_compute. discriminate.
  - exact Hcur.
Defined.

Lemma redos_walk_forward_witness :
  currentStateIndex (run (replicate 5 redo) (run (pushes 3 ++ undos 3) start)) = 2.
Proof.
  destruct (redos_walk_forward (replicate 5 redo) (run (pushes 3 ++ undos 3) start))
    as [Hcur _].
  - apply Forall_replicate, redo_redoes.
  - vm_compute. discriminate.
  - exact Hcur.
Defined.

Lemma commit_is_current_snapshot_witness :
  get (canvasStates (step (push "D") swept_below))
      (currentStateIndex (step (push "D") swept_below))
  = VStr "D".
Proof.
  apply (commit_is_current_snapshot (push "D") (VStr "D") swept_below).
  by apply push_commits.
Defined.

Lemma commit_keeps_past_and_ends_redo_witness :
  currentStateIndex (step undo (step (push "C") (run [push "A"; push "B"] start)))
  = 1.
Proof.
  destruct (commit_keeps_past_and_ends_redo (push "C") undo redo (VStr "C")
              (run [push "A"; push "B"] start))
    as (_ & _ & Hcur & _).
  - by apply push_commits.
  - exact undo_undoes.
  - exact redo_redoes.
  - split; vm_compute; discriminate.
  - exact Hcur.
Defined.

Lemma commit_below_range_truncates_witness :
  currentStateIndex swept_below = -2 ∧
  length (history swept_below) = 50%nat ∧
  length (history (step (push "D") swept_below)) = 49%nat ∧
  currentStateIndex (step (push "D") swept_below) = -1.
Proof.
  destruct (commit_below_range_truncates (push "D") (VStr "D") swept_below)
    as (Hhistory & Hcur & _).
  - by apply push_commits.
  - vm_compute. reflexivity.
  - split; [vm_compute; reflexivity|]. split; [vm_compute; reflexivity|].
    split; [rewrite Hhistory; vm_compute; reflexivity|exact Hcur].
Defined.

Lemma broadcast_reaches_each_open_participant_once_witness :
  ∃ st' keys,
    broadcastToAll (user_left_message "user-3") (Some "user-1") start
    = (Done tt, st') ∧
    outbox st' =
      outbox start ++
        ((fun key => (key, JSON_stringify (user_left_message "user-3"))) <$> keys) ∧
    NoDup keys.
Proof.
  destruct (broadcast_reaches_each_open_participant_once
              (user_left_message "user-3") (Some "user-1") start start_distinct)
    as (st' & keys & Hrun & _ & _ & _ & _ & Hout & Hkeys & _).
  exists st', keys. by repeat split.
Defined.

Lemma start_without_user_4 : "user-4" ∉ (connections start).*1.
Proof. by_decide. Defined.

Lemma connection_greets_newcomer_witness :
  ∃ st',
    on_connection newcomer "user-4" "#96CEB4" start = (Done tt, st') ∧
    (connections st').*1 = ["user-1"; "user-2"; "user-3"; "user-4"] ∧
    "user-4" ∈ recipients None (connections st').
Proof.
  destruct (connection_greets_newcomer newcomer "user-4" "#96CEB4" start
              start_without_user_4)
    as (st' & Hrun & Hconn & _ & _ & _ & Hself).
  exists st'. split; [exact Hrun|]. rewrite Hconn.
  split; [reflexivity|]. by apply Hself.
Defined.

Lemma late_joiner_gets_last_commit_witness :
  ("user-4", JSON_stringify (canvas_state_message (-1 + 1) (VStr "A")))
  ∈ outbox (on_connection newcomer "user-4" "#96CEB4" (step (push "A") start)).2.
Proof.
  apply (late_joiner_gets_last_commit (push "A") (VStr "A") newcomer
           "user-4" "#96CEB4" start).
  - by apply push_commits.
  - vm_compute. discriminate.
Defined.

Lemma connect_then_close_restores_registry_witness :
  connections
    (on_close "user-4" (on_connection newcomer "user-4" "#96CEB4" start).2).2
  = connections start.
Proof.
  apply (connect_then_close_restores_registry newcomer "user-4" "#96CEB4" start
           start_without_user_4).
Defined.

Lemma keys_stay_distinct_witness :
  keys_distinct (on_connection newcomer "user-2" "#96CEB4" start).2.
Proof.
  apply (keys_stay_distinct newcomer "user-2" "#96CEB4" Sweep start start_distinct).
Defined.

Lemma remove_dotdot_is_idempotent_witness :
  Http.remove_dotdot "/style.css" = "/style.css".
Proof.
  destruct (remove_dotdot_is_idempotent "/style.css") as [Hclean _].
  apply Hclean. reflexivity.
Defined.

Lemma sweep_in_range_iff_witness :
  ¬ cursor_in_range (step Sweep (run (pushes 52 ++ undos 51) start)).
Proof.
  intros Hin.
  assert (Hrange : cursor_in_range (run (pushes 52 ++ undos 51) start))
    by (split; vm_compute; discriminate).
  pose proof (proj1 (sweep_in_range_iff _ Hrange) Hin) as Hle.
  vm_compute in Hle. exact (Hle eq_refl).
Defined.

End Runs.
